(** * KB Dojo: the article pipeline and the batch orchestrator of [app.py]

    A shallow embedding of [app.py].  The asynchronous functions of the
    source run one at a time on a single thread of control, so each one
    is a computation in a state-and-exception monad over a [World]: the
    chronological trace of everything the program does to its
    surroundings (log records, calls for and of the model client, calls
    of the [prompt_utils] and [pandoc_utils] helpers, progress updates
    and the widgets of the page).  What the surroundings answer is read
    from an [Env]. *)

From Stdlib Require Import String Ascii List Bool Arith ZArith QArith Lia Sorted.
Import ListNotations.
Local Open Scope nat_scope.
Local Open Scope list_scope.
Local Open Scope string_scope.

(** ** Python values and built-ins used by [app.py] *)

Module Py.

(** A [str] is a sequence of characters; a character is one code
    point below 256. *)
Definition nl : string := String "010"%char EmptyString.
Definition dquote : string := String "034"%char EmptyString.

(** [c.isspace()] for a code point below 256. *)
Definition isspace (c : ascii) : bool :=
  let n := nat_of_ascii c in
  ((9 <=? n)%nat && (n <=? 13)%nat) || ((28 <=? n)%nat && (n <=? 32)%nat)
  || (n =? 133)%nat || (n =? 160)%nat.

Definition is_empty (s : string) : bool :=
  match s with EmptyString => true | String _ _ => false end.

Fixpoint lstrip (s : string) : string :=
  match s with
  | EmptyString => EmptyString
  | String c s' => if isspace c then lstrip s' else s
  end.

Fixpoint rstrip (s : string) : string :=
  match s with
  | EmptyString => EmptyString
  | String c s' =>
      let r := rstrip s' in
      if isspace c && is_empty r then EmptyString else String c r
  end.

(** [s.strip()] *)
Definition strip (s : string) : string := lstrip (rstrip s).

(** [s[:n]] *)
Fixpoint slice_to (n : nat) (s : string) : string :=
  match n, s with
  | S n', String c s' => String c (slice_to n' s')
  | _, _ => EmptyString
  end.

(** [sep.join(l)] *)
Fixpoint join (sep : string) (l : list string) : string :=
  match l with
  | [] => EmptyString
  | [x] => x
  | x :: rest => x ++ sep ++ join sep rest
  end.

(** [x in l] for a list of strings. *)
Definition mem (x : string) (l : list string) : bool :=
  existsb (String.eqb x) l.

(** Truth value of a list and of an optional string in a condition. *)
Definition truthy_list {A} (l : list A) : bool :=
  match l with [] => false | _ :: _ => true end.

Definition truthy_str (s : option string) : bool :=
  match s with
  | None => false
  | Some t => negb (is_empty t)
  end.

(** An optional string inside an f-string. *)
Definition format_str (s : option string) : string :=
  match s with
  | None => "None"
  | Some t => t
  end.

(** [s.startswith(prefix)] *)
Fixpoint startswith (s prefix : string) {struct prefix} : bool :=
  match prefix, s with
  | EmptyString, _ => true
  | String p prefix', String c s' => Ascii.eqb c p && startswith s' prefix'
  | String _ _, EmptyString => false
  end.

(** [s.endswith(suffix)] *)
Definition endswith (s suffix : string) : bool :=
  (String.length suffix <=? String.length s)%nat
  && String.eqb
       (substring (String.length s - String.length suffix)
                  (String.length suffix) s)
       suffix.

(** [zip(xs, ys)]: stops at the end of the shorter list. *)
Fixpoint zip {A B} (xs : list A) (ys : list B) : list (A * B) :=
  match xs, ys with
  | x :: xs', y :: ys' => (x, y) :: zip xs' ys'
  | _, _ => []
  end.

Inductive exn : Type :=
| TypeError          (* 'NoneType' object is not subscriptable *)
| AttributeError     (* 'NoneType' object has no attribute 'getvalue' *)
| ZeroDivisionError
| OpenAIError.       (* AsyncOpenAI(...) could not build the client *)

End Py.

Arguments Py.startswith : simpl never.

(** ** Data *)

(** The content of an [io.BytesIO] buffer. *)
Definition bytes := string.

(** The [options] dictionary built by the sidebar. *)
Record Options : Type := {
  Actions : list string;               (* options['Actions'] *)
  Perspective : list string;           (* options['Perspective'] *)
  Translation_Languages : list string; (* options['Translation Languages'] *)
  Temperature : option Q;              (* options.get('Temperature', 0.7) *)
  Max_Tokens : option Z                (* options.get('Max Tokens', 2000) *)
}.

(** One processing result: [(docx_bytes, title, api_response, lang)]. *)
Definition result : Type := (option bytes * string * string * string)%type.

Definition result_docx (r : result) : option bytes :=
  let '(d, _, _, _) := r in d.
Definition result_title (r : result) : string :=
  let '(_, t, _, _) := r in t.
Definition result_text (r : result) : string :=
  let '(_, _, c, _) := r in c.
Definition result_lang (r : result) : string :=
  let '(_, _, _, l) := r in l.

Inductive level : Type := DEBUG | ERROR.

(** What [client.chat.completions.create] followed by
    [completion.choices[0].message.content] gives: the text of the
    completion, or an exception with its message. *)
Inductive api_reply : Type :=
| Completion (text : string)
| ApiError (msg : string).

(** The data handed to a download button. *)
Inductive payload : Type :=
| Document (b : bytes)
| Archive (entries : list (string * bytes)).

Inductive event : Type :=
| Log (lvl : level) (msg : string)
| GetOpenAIClient
| ChatCompletion (model system user : string) (temperature : Q)
                 (max_tokens : Z)
| TranslateCall (content language model : string)
| PerspectiveSections (content : string) (perspectives : list string)
| SaveAsWord (markdown : string)
| ProgressBar (value : nat)
| ProgressUpdate (completed total : nat)   (* the value completed/total *)
| Subheader (text : string)
| Expander (label : string)
| Markdown (html : string)
| StError (msg : string)
| DownloadButton (label : string) (data : payload) (file_name mime : string).

Definition World : Type := list event.

(** The surroundings of [app.py]: the constant of [config], the
    constructor of the client, the remote model, and the helpers of
    [utils] whose code is not part of [app.py].  An answer may depend on
    everything that happened before. *)
Record Env : Type := {
  DEFAULT_PROMPT_ROLE : string;
  get_openai_client_raises : World -> bool;
  chat_completions_create : World -> string -> string -> api_reply;
  translate_reply : World -> string -> string -> option string;
  perspective_sections : string -> list string -> string;
  save_as_word_reply : World -> string -> option bytes
}.

(** ** The monad of the program *)

Inductive outcome (A : Type) : Type :=
| Returns (a : A)
| Raises (e : Py.exn).
Arguments Returns {A} a.
Arguments Raises {A} e.

Definition M (A : Type) : Type := World -> outcome A * World.

Definition ret {A} (a : A) : M A := fun w => (Returns a, w).

Definition bind {A B} (m : M A) (k : A -> M B) : M B :=
  fun w =>
    match m w with
    | (Returns a, w') => k a w'
    | (Raises e, w') => (Raises e, w')
    end.

Definition raise {A} (e : Py.exn) : M A := fun w => (Raises e, w).

Definition emit (e : event) : M unit := fun w => (Returns tt, w ++ [e])%list.

Declare Scope prog_scope.
Delimit Scope prog_scope with prog.
Notation "x <- m ;; k" := (bind m (fun x => k))
  (at level 61, m at next level, right associativity) : prog_scope.
Notation "m ;; k" := (bind m (fun _ => k))
  (at level 61, right associativity) : prog_scope.
Local Open Scope prog_scope.

Definition outcome_of {A} (m : M A) (w : World) : outcome A := fst (m w).
Definition world_of {A} (m : M A) (w : World) : World := snd (m w).

Definition logger_debug (msg : string) : M unit := emit (Log DEBUG msg).
Definition logger_error (msg : string) : M unit := emit (Log ERROR msg).
Definition st_error (msg : string) : M unit := emit (StError msg).

(** ** The functions of [app.py] *)

Section App.

Variable env : Env.

(** The calls that leave [app.py]; each is recorded in the trace and
    answered by the surroundings. *)

(** [get_openai_client()], lines 17-19: the client, built by
    [AsyncOpenAI(api_key=OPENAI_API_KEY)] and kept by
    [st.cache_resource], or the exception the constructor ends in (its
    [OpenAIError] when no key is configured).  The surroundings say
    which, at every call. *)
Definition get_openai_client : M unit :=
  fun w =>
    (if get_openai_client_raises env w
     then Raises Py.OpenAIError
     else Returns tt,
     w ++ [GetOpenAIClient])%list.

(** [await client.chat.completions.create(...)] and the access to
    [completion.choices[0].message.content], inside the [try]. *)
Definition chat_completion (selected_model prompt : string)
           (options : Options) : M api_reply :=
  fun w =>
    (Returns (chat_completions_create env w selected_model prompt),
     w ++ [ChatCompletion selected_model (DEFAULT_PROMPT_ROLE env) prompt
             (match Temperature options with
              | Some t => t
              | None => (7 # 10)%Q
              end)
             (match Max_Tokens options with
              | Some n => n
              | None => 2000%Z
              end)])%list.

(** [await prompt_utils.translate_content(content, lang, selected_model,
    options)] *)
Definition prompt_utils_translate_content (content lang selected_model : string)
           (options : Options) : M (option string) :=
  fun w =>
    (Returns (translate_reply env w content lang),
     w ++ [TranslateCall content lang selected_model])%list.

(** [prompt_utils.create_perspective_sections(content, perspectives)] *)
Definition prompt_utils_create_perspective_sections (content : string)
           (perspectives : list string) : M string :=
  fun w =>
    (Returns (perspective_sections env content perspectives),
     w ++ [PerspectiveSections content perspectives])%list.

(** [pandoc_utils.save_as_word(markdown)] *)
Definition pandoc_utils_save_as_word (markdown : string)
  : M (option bytes) :=
  fun w =>
    (Returns (save_as_word_reply env w markdown),
     w ++ [SaveAsWord markdown])%list.

(** [send_to_openai_api_async], lines 22-38.  The client is fetched
    at line 23, before the [try]: an exception raised there leaves the
    function; one raised by the request is caught at line 35. *)
Definition send_to_openai_api_async (prompt selected_model : string)
           (options : Options) : M (option string) :=
  get_openai_client ;;
  reply <- chat_completion selected_model prompt options ;;
  match reply with
  | Completion text => ret (Some (Py.strip text))
  | ApiError e =>
      logger_error ("OpenAI API Error: " ++ e) ;;
      st_error ("OpenAI API Error: " ++ e) ;;
      ret None
  end.

(** The text shared by the generate and the reauthor prompt. *)
Definition perspectives_clause (perspectives : list string) : string :=
  if Py.truthy_list perspectives
  then "Include separate sections for the following perspectives: "
       ++ Py.join ", " perspectives ++ "." ++ Py.nl ++ Py.nl
  else EmptyString.

(** The prompt of [generate_content], lines 87-92. *)
Definition generate_prompt (title content : string)
           (perspectives : list string) : string :=
  ("Generate a detailed knowledge base article based on the following title and content. If the content is a specific request (e.g., 'write a recipe for chocolate cake'), create an article that fulfills that request. Title: "
   ++ title ++ Py.nl ++ Py.nl ++ "Content or Request: " ++ content
   ++ Py.nl ++ Py.nl)
  ++ perspectives_clause perspectives
  ++ "Provide the generated content in markdown format, without any additional comments or questions.".

(** [generate_content], lines 85-98. *)
Definition generate_content (title content : string)
           (perspectives : list string) (selected_model : string)
           (options : Options) : M string :=
  logger_debug "Generating content" ;;
  let prompt := generate_prompt title content perspectives in
  generated_content <- send_to_openai_api_async prompt selected_model options ;;
  match generated_content with
  | Some text =>
      if Py.is_empty (Py.strip text)
      then logger_error "Content generation failed or returned empty content" ;;
           ret content
      else ret text
  | None =>
      logger_error "Content generation failed or returned empty content" ;;
      ret content
  end.

(** The prompt of [reauthor_content], lines 104-119. *)
Definition reauthor_prompt (content : string)
           (template_content : option string)
           (perspectives : list string) : string :=
  let prompt := "Reauthor the following content" in
  let prompt :=
    if Py.is_empty (Py.strip content)
    then "Generate a knowledge base article based on the following template:"
    else prompt in
  let prompt :=
    if Py.truthy_str template_content
    then prompt ++ ", using the provided template as a guide for formatting:"
         ++ Py.nl ++ Py.nl ++ "Template:" ++ Py.nl
         ++ Py.format_str template_content
         ++ Py.nl ++ Py.nl ++ "Content to reauthor:"
    else prompt ++ ", maintaining its core information but improving its clarity, structure, and readability:" in
  let prompt := prompt ++ (Py.nl ++ Py.nl ++ content ++ Py.nl ++ Py.nl) in
  let prompt := prompt ++ perspectives_clause perspectives in
  prompt ++ "Provide the reauthored content directly, without any additional comments or questions.".

(** [reauthor_content], lines 101-125. *)
Definition reauthor_content (content : string)
           (template_content : option string)
           (perspectives : list string) (selected_model : string)
           (options : Options) : M string :=
  logger_debug "Reauthoring content" ;;
  let prompt := reauthor_prompt content template_content perspectives in
  reauthored_content <- send_to_openai_api_async prompt selected_model options ;;
  match reauthored_content with
  | Some text =>
      if Py.is_empty (Py.strip text)
      then logger_error "Reauthoring failed or returned empty content" ;;
           ret content
      else ret text
  | None =>
      logger_error "Reauthoring failed or returned empty content" ;;
      ret content
  end.

(** The prompt of [format_to_template], line 130. *)
Definition format_prompt (content template : string) : string :=
  "Format the following content to match the provided template structure, maintaining the original information:"
  ++ Py.nl ++ Py.nl ++ "Content:" ++ Py.nl ++ content
  ++ Py.nl ++ Py.nl ++ "Template:" ++ Py.nl ++ template.

(** [format_to_template], lines 128-131. *)
Definition format_to_template (content template selected_model : string)
           (options : Options) : M (option string) :=
  logger_debug "Formatting content to template" ;;
  send_to_openai_api_async (format_prompt content template)
                           selected_model options.

(** The prompt of [translate_content], line 136. *)
Definition translate_prompt (content language : string) : string :=
  "Translate the following content to " ++ language
  ++ ", maintaining its original structure and formatting. Provide the translated content directly, without any additional comments or questions:"
  ++ Py.nl ++ Py.nl ++ content.

(** [translate_content], lines 134-137. *)
Definition translate_content (content language selected_model : string)
           (options : Options) : M (option string) :=
  logger_debug ("Translating content to " ++ language) ;;
  send_to_openai_api_async (translate_prompt content language)
                           selected_model options.

(** The tuple appended to [results], lines 76 and 81. *)
Definition make_result (docx_bytes : option bytes)
           (title text lang : string) : result :=
  (docx_bytes, title, text, lang).

(** Step 1 of [process_article_async], lines 54-60. *)
Definition content_stage (title content : string) (options : Options)
           (selected_model : string) (template_content : option string)
  : M string :=
  let original_content := content in
  let processed_content := original_content in
  let actions := Actions options in
  let perspectives := Perspective options in
  if Py.mem "Generate Content" actions then
    processed_content <-
      generate_content title content perspectives selected_model options ;;
    logger_debug ("Content after generation: "
                  ++ Py.slice_to 100 processed_content ++ "...") ;;
    ret processed_content
  else if Py.mem "Reauthor Content" actions
          || Py.mem "Format to Template" actions then
    processed_content <-
      reauthor_content processed_content template_content perspectives
                       selected_model options ;;
    logger_debug ("Content after reauthoring and/or formatting: "
                  ++ Py.slice_to 100 processed_content ++ "...") ;;
    ret processed_content
  else ret processed_content.

(** Step 2 of [process_article_async], lines 62-65. *)
Definition perspective_stage (processed_content : string)
           (options : Options) : M string :=
  let actions := Actions options in
  let perspectives := Perspective options in
  if Py.truthy_list perspectives
     && negb (Py.mem "Reauthor Content" actions) then
    processed_content <-
      prompt_utils_create_perspective_sections processed_content
                                               perspectives ;;
    logger_debug ("Content after applying perspectives: "
                  ++ Py.slice_to 100 processed_content ++ "...") ;;
    ret processed_content
  else ret processed_content.

(** The loop [for lang in languages], lines 69-76.  The slice
    [translated_content[:100]] of line 71 raises [TypeError] when the
    translation is [None]. *)
Fixpoint translation_loop (title processed_content selected_model : string)
         (options : Options) (languages : list string)
         (results : list result) : M (list result) :=
  match languages with
  | [] => ret results
  | lang :: rest =>
      translated_content <-
        prompt_utils_translate_content processed_content lang
                                       selected_model options ;;
      match translated_content with
      | None => raise Py.TypeError
      | Some translated =>
          logger_debug ("Translated content (" ++ lang ++ "): "
                        ++ Py.slice_to 100 translated ++ "...") ;;
          docx_bytes <- pandoc_utils_save_as_word translated ;;
          translation_loop title processed_content selected_model options
            rest
            (results ++ [make_result docx_bytes (title ++ "_" ++ lang)
                                     translated lang])%list
      end
  end.

(** Step 3 of [process_article_async], lines 67-81. *)
Definition translation_stage (title processed_content : string)
           (options : Options) (selected_model : string)
           (results : list result) : M (list result) :=
  let actions := Actions options in
  let languages := Translation_Languages options in
  if Py.mem "Translate" actions then
    translation_loop title processed_content selected_model options
                     languages results
  else
    docx_bytes <- pandoc_utils_save_as_word processed_content ;;
    ret (results ++ [make_result docx_bytes title processed_content
                                 "Original"])%list.

(** [process_article_async], lines 41-83. *)
Definition process_article_async (title content : string)
           (options : Options) (selected_model : string)
           (template_content : option string) : M (list result) :=
  logger_debug ("Processing article: " ++ title) ;;
  logger_debug ("Initial content: " ++ Py.slice_to 100 content ++ "...") ;;
  let results : list result := [] in
  processed_content <-
    content_stage title content options selected_model template_content ;;
  processed_content <- perspective_stage processed_content options ;;
  translation_stage title processed_content options selected_model results.

(** The number added to [completed_operations] per article, lines
    151-152; the same expression is the factor of line 142-143. *)
Definition operations_per_article (options : Options) : nat :=
  List.length (Actions options)
  + (if Py.mem "Translate" (Actions options)
     then List.length (Translation_Languages options)
     else 0).

(** [progress_bar.progress(completed_operations / total_operations)],
    line 153: the division raises when the total is zero. *)
Definition progress_bar_progress (completed_operations total_operations : nat)
  : M unit :=
  if (total_operations =? 0)%nat
  then raise Py.ZeroDivisionError
  else emit (ProgressUpdate completed_operations total_operations).

(** The loop of [process_multiple_articles_async], lines 147-153, with
    its two accumulators. *)
Fixpoint batch_loop (options : Options) (selected_model : string)
         (template_content : option string) (total_operations : nat)
         (articles : list (string * string))
         (all_results : list result) (completed_operations : nat)
  : M (list result * nat) :=
  match articles with
  | [] => ret (all_results, completed_operations)
  | (title, content) :: rest =>
      logger_debug ("Processing article: " ++ title) ;;
      results <- process_article_async title content options selected_model
                                       template_content ;;
      let all_results := (all_results ++ results)%list in
      let completed_operations :=
        completed_operations + operations_per_article options in
      progress_bar_progress completed_operations total_operations ;;
      batch_loop options selected_model template_content total_operations
                 rest all_results completed_operations
  end.

(** [total_operations], lines 142-143. *)
Definition total_operations (titles : list string) (options : Options)
  : nat :=
  List.length titles * operations_per_article options.

(** [process_multiple_articles_async], lines 140-155. *)
Definition process_multiple_articles_async (titles contents : list string)
           (options : Options) (selected_model : string)
           (template_content : option string) : M (list result) :=
  let all_results : list result := [] in
  let total := total_operations titles options in
  emit (ProgressBar 0) ;;
  let completed_operations := 0 in
  final <- batch_loop options selected_model template_content total
                      (Py.zip titles contents) all_results
                      completed_operations ;;
  ret (fst final).


Definition process_multiple_articles (titles contents : list string)
           (options : Options) (selected_model : string)
           (template_content : option string) : M (list result) :=
  process_multiple_articles_async titles contents options selected_model
                                  template_content.

End App.

(** ** The presentation of the results *)

Definition docx_mime : string :=
  "application/vnd.openxmlformats-officedocument.wordprocessingml.document".

(** The name under which one result is offered, lines 279 and 293. *)
Definition docx_file_name (title lang : string) : string :=
  title ++ "_" ++ lang ++ ".docx".

(** The loop of [display_results], lines 272-283. *)
Fixpoint display_loop (results : list result) : M unit :=
  match results with
  | [] => ret tt
  | (docx_bytes, title, api_response, lang) :: rest =>
      emit (Expander (title ++ " - " ++ lang)) ;;
      emit (Markdown ("<div class=" ++ Py.dquote ++ "generated-content"
                      ++ Py.dquote ++ ">" ++ api_response ++ "</div>")) ;;
      match docx_bytes with
      | Some buffer =>
          emit (DownloadButton
                  ("Download " ++ title ++ " (" ++ lang ++ ") as Word")
                  (Document buffer)
                  (docx_file_name title lang)
                  docx_mime)
      | None =>
          st_error ("Failed to generate Word document for " ++ title
                    ++ " (" ++ lang ++ ")")
      end ;;
      display_loop rest
  end.

(** The loop of [create_zip_download], lines 292-293:
    [docx_bytes.getvalue()] raises [AttributeError] on [None]. *)
Fixpoint zip_loop (results : list result) (zip_file : list (string * bytes))
  : M (list (string * bytes)) :=
  match results with
  | [] => ret zip_file
  | (docx_bytes, title, _, lang) :: rest =>
      match docx_bytes with
      | Some buffer =>
          zip_loop rest (zip_file ++ [(docx_file_name title lang, buffer)])%list
      | None => raise Py.AttributeError
      end
  end.

(** [create_zip_download], lines 289-300. *)
Definition create_zip_download (results : list result) : M unit :=
  zip_buffer <- zip_loop results [] ;;
  emit (DownloadButton "Download All Articles as ZIP" (Archive zip_buffer)
                       "kb_articles.zip" "application/zip").

(** [display_results], lines 270-286. *)
Definition display_results (results : list result) : M unit :=
  emit (Subheader "Generated Articles") ;;
  display_loop results ;;
  if (1 <? List.length results)%nat
  then create_zip_download results
  else ret tt.

(** ** Observations on a trace *)

(** The progress values shown, as pairs (completed, total). *)
Definition progress_updates (w : World) : list (nat * nat) :=
  flat_map (fun e => match e with
                     | ProgressUpdate c t => [(c, t)]
                     | _ => []
                     end) w.

(** The user prompts sent to the model. *)
Definition chat_prompts (w : World) : list string :=
  flat_map (fun e => match e with
                     | ChatCompletion _ _ prompt _ _ => [prompt]
                     | _ => []
                     end) w.

(** The calls of [prompt_utils.create_perspective_sections]. *)
Definition sections_calls (w : World) : list (string * list string) :=
  flat_map (fun e => match e with
                     | PerspectiveSections c ps => [(c, ps)]
                     | _ => []
                     end) w.

(** The two log records that open the work on an article: line 148 and
    line 43 ("Processing article: ...") and line 44 ("Initial content:
    ..."). *)
Definition is_article_log (e : event) : bool :=
  match e with
  | Log DEBUG msg =>
      Py.startswith msg "Processing article: "
      || Py.startswith msg "Initial content: "
  | _ => false
  end.

Definition article_logs (w : World) : World := filter is_article_log w.

(** The records with which the batch loop (line 148) and the pipeline
    (lines 43-44) open the work on one article. *)
Definition article_opening (article : string * string) : World :=
  let '(title, content) := article in
  [Log DEBUG ("Processing article: " ++ title);
   Log DEBUG ("Processing article: " ++ title);
   Log DEBUG ("Initial content: " ++ Py.slice_to 100 content ++ "...")].

(** The marks [format_to_template] leaves: its log record of line 129
    and a model call with its prompt of line 130. *)
Definition from_format_to_template (e : event) : bool :=
  match e with
  | Log _ msg => String.eqb msg "Formatting content to template"
  | ChatCompletion _ _ prompt _ _ =>
      Py.startswith prompt "Format the following content to match the provided template structure"
  | _ => false
  end.

(** The files offered for download: name and data. *)
Definition downloads (w : World) : list (string * payload) :=
  flat_map (fun e => match e with
                     | DownloadButton _ data file_name _ => [(file_name, data)]
                     | _ => []
                     end) w.

(** The texts handed to [pandoc_utils.save_as_word]. *)
Definition exports (w : World) : list string :=
  flat_map (fun e => match e with
                     | SaveAsWord markdown => [markdown]
                     | _ => []
                     end) w.

(** The calls of [prompt_utils.translate_content]: content, language and
    model. *)
Definition translate_calls (w : World) : list (string * string * string) :=
  flat_map (fun e => match e with
                     | TranslateCall c l m => [(c, l, m)]
                     | _ => []
                     end) w.

(** The records logged as errors, and the errors shown on the page. *)
Definition error_logs (w : World) : list string :=
  flat_map (fun e => match e with
                     | Log ERROR msg => [msg]
                     | _ => []
                     end) w.

Definition st_errors (w : World) : list string :=
  flat_map (fun e => match e with
                     | StError msg => [msg]
                     | _ => []
                     end) w.

(** The labels of the expanders opened on the page. *)
Definition expanders (w : World) : list string :=
  flat_map (fun e => match e with
                     | Expander label => [label]
                     | _ => []
                     end) w.

(** What the content stage may add to the trace: log records, calls
    for the client, requests to the model and errors shown. *)
Definition content_stage_event (e : event) : bool :=
  match e with
  | Log _ _ | GetOpenAIClient | ChatCompletion _ _ _ _ _ | StError _ => true
  | _ => false
  end.

(** What the translation stage may add: calls of the translation
    helper, debug records and exports. *)
Definition translation_stage_event (e : event) : bool :=
  match e with
  | TranslateCall _ _ _ | Log DEBUG _ | SaveAsWord _ => true
  | _ => false
  end.


(** The download a result leads to, if it has a document, and the error
    shown if it has none (lines 275-283). *)
Definition result_download (r : result) : list (string * payload) :=
  match result_docx r with
  | Some buffer =>
      [(docx_file_name (result_title r) (result_lang r), Document buffer)]
  | None => []
  end.

Definition result_failure (r : result) : list string :=
  match result_docx r with
  | Some _ => []
  | None =>
      ["Failed to generate Word document for " ++ result_title r
       ++ " (" ++ result_lang r ++ ")"]
  end.

(** The entry a result gives to the archive (line 293). *)
Definition result_entry (r : result) : list (string * bytes) :=
  match result_docx r with
  | Some buffer => [(docx_file_name (result_title r) (result_lang r), buffer)]
  | None => []
  end.

(** The label of the expander of a result (line 273). *)
Definition result_label (r : result) : string :=
  result_title r ++ " - " ++ result_lang r.

(** Every result carries a document. *)
Definition all_documents (results : list result) : bool :=
  forallb (fun r => match result_docx r with
                    | Some _ => true
                    | None => false
                    end) results.

(** What a content call returns for a reply of the model: the trimmed
    text of the completion, or the given content when the call failed or
    the text is blank. *)
Definition content_or_reply (content : string) (reply : api_reply) : string :=
  match reply with
  | Completion text =>
      if Py.is_empty (Py.strip text) then content else Py.strip text
  | ApiError _ => content
  end.

(** The call failed or the completion is blank: the case in which a
    content call falls back. *)
Definition falls_back (reply : api_reply) : bool :=
  match reply with
  | Completion text => Py.is_empty (Py.strip text)
  | ApiError _ => true
  end.

(** The language tags and the titles of the results of one article
    (lines 76 and 81). *)
Definition article_tags (options : Options) : list string :=
  if Py.mem "Translate" (Actions options)
  then Translation_Languages options
  else ["Original"].

Definition article_titles (options : Options) (title : string) : list string :=
  if Py.mem "Translate" (Actions options)
  then map (fun l => title ++ "_" ++ l) (Translation_Languages options)
  else [title].

(** The words by which a prompt asks for the content alone, and the
    test that a prompt ends with them. *)
Definition no_commentary : string :=
  "without any additional comments or questions".

Definition ends_with_instruction (prompt : string) : bool :=
  Py.endswith prompt (no_commentary ++ ".").

(** [sub in s] for strings. *)
Fixpoint contains (s sub : string) : bool :=
  Py.startswith s sub
  || match s with
     | EmptyString => false
     | String _ s' => contains s' sub
     end.

(** An event that none of the observations above reports, and that is
    no call of the perspective helper either. *)
Definition plain (e : event) : bool :=
  negb (is_article_log e) && negb (from_format_to_template e)
  && match e with
     | ProgressUpdate _ _ | PerspectiveSections _ _ => false
     | _ => true
     end.

Definition is_plain (e : event) : Prop := plain e = true.

(** [sub] occurs in [s]. *)
Definition occurs_in (sub s : string) : Prop :=
  exists before after, s = before ++ sub ++ after.

(** The condition of line 63. *)
Definition sectioning_applies (options : Options) : bool :=
  Py.truthy_list (Perspective options)
  && negb (Py.mem "Reauthor Content" (Actions options)).

(** A reply of the remote model that [send_to_openai_api_async] turns
    into [None] or into the empty text. *)
Definition failed_or_blank (reply : api_reply) : Prop :=
  match reply with
  | ApiError _ => True
  | Completion text => Py.strip text = EmptyString
  end.

(** ** Calls and their answers *)

(** Whether the call recorded as [e], made after the trace [w], was
    answered: [get_openai_client] returned the client, and
    [prompt_utils.translate_content] came back with a text and not with
    [None].  Every other event counts as answered. *)
Definition call_answered (env : Env) (w : World) (e : event) : bool :=
  match e with
  | GetOpenAIClient => negb (get_openai_client_raises env w)
  | TranslateCall content language _ =>
      match translate_reply env w content language with
      | Some _ => true
      | None => false
      end
  | _ => true
  end.

(** [ok] holds of every event of [d], each taken with the trace before
    it; [d] is what follows the trace [w]. *)
Fixpoint all_calls (ok : World -> event -> bool) (w : World)
         (d : list event) : bool :=
  match d with
  | [] => true
  | e :: rest => ok w e && all_calls ok (w ++ [e])%list rest
  end.

(** Every call of the run [d], started after the trace [w], was
    answered: no call for the client raised and no translation came back
    as [None]. *)
Definition unhindered (env : Env) (w : World) (d : list event) : bool :=
  all_calls (call_answered env) w d.

(** ** Predicates on computations *)

(** [m] leaves the trace it finds untouched and adds only events that
    satisfy [P]. *)
Definition appends (P : event -> Prop) {A} (m : M A) : Prop :=
  forall w, exists d, snd (m w) = (w ++ d)%list /\ Forall P d.

(** What a content call does from the trace [w]: it logs [opening] and
    calls for the client; when that raises, the call ends in the
    exception, and otherwise it sends [prompt] and returns the reply or,
    failing that, [content]. *)
Definition content_call (env : Env) (opening prompt content model : string)
           (m : M string) (w : World) : Prop :=
  let w0 := (w ++ [Log DEBUG opening])%list in
  let reply :=
    chat_completions_create env (w0 ++ [GetOpenAIClient])%list model prompt in
  exists d,
    m w = (if get_openai_client_raises env w0
           then Raises Py.OpenAIError
           else Returns (content_or_reply content reply),
           (w ++ Log DEBUG opening :: GetOpenAIClient :: d)%list)
    /\ chat_prompts d
       = (if get_openai_client_raises env w0 then [] else [prompt])
    /\ (get_openai_client_raises env w0 = true -> d = [])
    /\ Forall (fun e => forall w', call_answered env w' e = true) d.

(** ** Sample surroundings and inputs *)

Module Sample.

(** Every call succeeds. *)
Definition fine : Env := {|
  DEFAULT_PROMPT_ROLE := "You are a helpful assistant.";
  get_openai_client_raises := fun _ => false;
  chat_completions_create := fun _ _ _ => Completion " # Article ";
  translate_reply := fun _ content lang => Some (lang ++ ": " ++ content);
  perspective_sections :=
    fun content perspectives =>
      content ++ " [" ++ Py.join ", " perspectives ++ "]";
  save_as_word_reply := fun _ markdown => Some markdown
|}.

(** The client is there, and every call fails. *)
Definition broken : Env := {|
  DEFAULT_PROMPT_ROLE := "You are a helpful assistant.";
  get_openai_client_raises := fun _ => false;
  chat_completions_create := fun _ _ _ => ApiError "Connection error.";
  translate_reply := fun _ _ _ => None;
  perspective_sections := fun content _ => content;
  save_as_word_reply := fun _ _ => None
|}.

(** The model answers with blanks only. *)
Definition blank : Env := {|
  DEFAULT_PROMPT_ROLE := "You are a helpful assistant.";
  get_openai_client_raises := fun _ => false;
  chat_completions_create := fun _ _ _ => Completion "   ";
  translate_reply := fun _ content lang => Some (lang ++ ": " ++ content);
  perspective_sections := fun content _ => content;
  save_as_word_reply := fun _ markdown => Some markdown
|}.

(** The client cannot be built, as when no key is configured;
    everything else succeeds. *)
Definition no_client : Env := {|
  DEFAULT_PROMPT_ROLE := "You are a helpful assistant.";
  get_openai_client_raises := fun _ => true;
  chat_completions_create := fun _ _ _ => Completion " # Article ";
  translate_reply := fun _ content lang => Some (lang ++ ": " ++ content);
  perspective_sections := fun content _ => content;
  save_as_word_reply := fun _ markdown => Some markdown
|}.

Definition options_of (actions perspectives languages : list string)
  : Options := {|
  Actions := actions;
  Perspective := perspectives;
  Translation_Languages := languages;
  Temperature := None;
  Max_Tokens := None
|}.

End Sample.

(** * Properties *)

(** ** Computations that only extend the trace *)

Section Appends.

Variable P : event -> Prop.

Lemma appends_ret {A} (a : A) : appends P (ret a).
Proof. intro w. exists []. rewrite app_nil_r. split; constructor. Qed.

Lemma appends_raise {A} e : appends P (@raise A e).
Proof. intro w. exists []. rewrite app_nil_r. split; constructor. Qed.

Lemma appends_emit e : P e -> appends P (emit e).
Proof. intros He w. exists [e]. split; [reflexivity | auto]. Qed.

Lemma appends_bind {A B} (m : M A) (k : A -> M B) :
  appends P m -> (forall a, appends P (k a)) -> appends P (bind m k).
Proof.
  intros Hm Hk w. unfold bind.
  destruct (Hm w) as [d1 [E1 F1]].
  destruct (m w) as [[a | e] w1]; simpl in E1; subst w1.
  - destruct (Hk a (w ++ d1)%list) as [d2 [E2 F2]].
    exists (d1 ++ d2)%list. rewrite app_assoc. split; [exact E2 |].
    apply Forall_app; split; assumption.
  - exists d1. split; [reflexivity | assumption].
Qed.

Variable env : Env.

Lemma appends_get_openai_client :
  P GetOpenAIClient -> appends P (get_openai_client env).
Proof. intros H w. exists [GetOpenAIClient]. split; [reflexivity | auto]. Qed.

Lemma appends_chat_completion model prompt options :
  (forall t n, P (ChatCompletion model (DEFAULT_PROMPT_ROLE env) prompt t n)) ->
  appends P (chat_completion env model prompt options).
Proof. intros H w. eexists [_]. split; [reflexivity | auto]. Qed.

Lemma appends_translate content lang model options :
  P (TranslateCall content lang model) ->
  appends P (prompt_utils_translate_content env content lang model options).
Proof. intros H w. eexists [_]. split; [reflexivity | auto]. Qed.

Lemma appends_sections content perspectives :
  P (PerspectiveSections content perspectives) ->
  appends P (prompt_utils_create_perspective_sections env content perspectives).
Proof. intros H w. eexists [_]. split; [reflexivity | auto]. Qed.

Lemma appends_save_as_word markdown :
  P (SaveAsWord markdown) ->
  appends P (pandoc_utils_save_as_word env markdown).
Proof. intros H w. eexists [_]. split; [reflexivity | auto]. Qed.

End Appends.

(** What a computation that only extends the trace added in one run. *)
Lemma appends_run (P : event -> Prop) {A} (m : M A) w out d :
  appends P m -> m w = (out, (w ++ d)%list) -> Forall P d.
Proof.
  intros Hm E. destruct (Hm w) as [d' [E' F']].
  rewrite E in E'. simpl in E'. apply app_inv_head in E'. subst d'.
  exact F'.
Qed.

Lemma filter_none {A} (f : A -> bool) (l : list A) :
  Forall (fun x => f x = false) l -> filter f l = [].
Proof.
  induction 1 as [| x l Hx _ IH]; simpl; [reflexivity |].
  rewrite Hx. exact IH.
Qed.

Lemma flat_map_none {A B} (f : A -> list B) (l : list A) :
  Forall (fun x => f x = []) l -> flat_map f l = [].
Proof.
  induction 1 as [| x l Hx _ IH]; simpl; [reflexivity |].
  rewrite Hx. exact IH.
Qed.

(** Decomposes a goal [appends P m] along the structure of [m]; [tac]
    closes the side conditions on the single events. *)
Ltac appends_steps tac :=
  repeat first
    [ apply appends_ret
    | apply appends_raise
    | apply appends_emit; tac
    | apply appends_get_openai_client; tac
    | apply appends_chat_completion; intros; tac
    | apply appends_translate; tac
    | apply appends_sections; tac
    | apply appends_save_as_word; tac
    | apply appends_bind; [ | intros ]
    | match goal with
      | |- appends _ (if ?b then _ else _) => destruct b
      | |- appends _ (match ?x with _ => _ end) => destruct x
      end ].

(** ** Calls and their answers along a trace *)

Lemma all_calls_app ok d1 :
  forall w d2,
    all_calls ok w (d1 ++ d2)%list
    = all_calls ok w d1 && all_calls ok (w ++ d1)%list d2.
Proof.
  induction d1 as [| e d1 IH]; intros w d2.
  - rewrite app_nil_r. reflexivity.
  - cbn [all_calls app]. rewrite IH, <- app_assoc, andb_assoc. reflexivity.
Qed.

Lemma all_calls_true ok d :
  Forall (fun e => forall w, ok w e = true) d ->
  forall w, all_calls ok w d = true.
Proof.
  induction 1 as [| e d He _ IH]; intro w; cbn [all_calls]; [reflexivity |].
  rewrite He, IH. reflexivity.
Qed.

Lemma unhindered_app env w d1 d2 :
  unhindered env w (d1 ++ d2)%list
  = unhindered env w d1 && unhindered env (w ++ d1)%list d2.
Proof. apply all_calls_app. Qed.

Lemma unhindered_true env d :
  Forall (fun e => forall w, call_answered env w e = true) d ->
  forall w, unhindered env w d = true.
Proof. apply all_calls_true. Qed.

(** A run is unhindered exactly when each of its events, taken with
    what precedes it, is an answered call. *)
Lemma unhindered_spec env d :
  forall w,
    unhindered env w d = true
    <-> (forall pre e post,
            d = (pre ++ e :: post)%list ->
            call_answered env (w ++ pre)%list e = true).
Proof.
  unfold unhindered.
  induction d as [| e0 d IH]; intro w; cbn [all_calls].
  - split; [| reflexivity].
    intros _ pre e post H. destruct pre; discriminate H.
  - rewrite andb_true_iff, IH. split.
    + intros [H0 H] pre e post E. destruct pre as [| x pre].
      * injection E as <- _. rewrite app_nil_r. exact H0.
      * injection E as <- E.
        replace (w ++ e0 :: pre)%list with ((w ++ [e0]) ++ pre)%list
          by (rewrite <- app_assoc; reflexivity).
        exact (H pre e post E).
    + intro H. split.
      * rewrite <- (app_nil_r w). exact (H [] e0 d eq_refl).
      * intros pre e post E.
        rewrite <- app_assoc. apply (H (e0 :: pre) e post).
        rewrite E. reflexivity.
Qed.

(** ** Trimmed text *)

Lemma lstrip_head (s : string) :
  Py.lstrip s = EmptyString
  \/ exists c r, Py.lstrip s = String c r /\ Py.isspace c = false.
Proof.
  induction s as [| c s IH]; simpl; [left; reflexivity |].
  destruct (Py.isspace c) eqn:Hc; [exact IH |].
  right. exists c, s. split; [reflexivity | exact Hc].
Qed.

Lemma strip_head (s : string) :
  Py.strip s = EmptyString
  \/ exists c r, Py.strip s = String c r /\ Py.isspace c = false.
Proof. apply lstrip_head. Qed.

Lemma strip_keeps_head (c : ascii) (r : string) :
  Py.isspace c = false ->
  Py.strip (String c r) = String c (Py.rstrip r).
Proof.
  intro Hc. unfold Py.strip. simpl. rewrite Hc. simpl. rewrite Hc.
  reflexivity.
Qed.

(** Trimming a trimmed text that is not empty leaves some text. *)
Lemma strip_strip_empty (s : string) :
  Py.is_empty (Py.strip (Py.strip s)) = Py.is_empty (Py.strip s).
Proof.
  destruct (strip_head s) as [-> | [c [r [-> Hc]]]]; [reflexivity |].
  rewrite (strip_keeps_head c r Hc). reflexivity.
Qed.

Lemma content_or_reply_not_blank content reply :
  Py.is_empty (Py.strip content) = false ->
  Py.is_empty (Py.strip (content_or_reply content reply)) = false.
Proof.
  intro Hc. unfold content_or_reply.
  destruct reply as [text | msg]; [| exact Hc].
  destruct (Py.is_empty (Py.strip text)) eqn:E; [exact Hc |].
  rewrite strip_strip_empty. exact E.
Qed.

(** ** What the stages of the pipeline add to the trace *)

Lemma generate_prompt_not_format title content perspectives :
  Py.startswith (generate_prompt title content perspectives)
    "Format the following content to match the provided template structure"
  = false.
Proof. reflexivity. Qed.

Lemma reauthor_prompt_not_format content template perspectives :
  Py.startswith (reauthor_prompt content template perspectives)
    "Format the following content to match the provided template structure"
  = false.
Proof.
  unfold reauthor_prompt.
  destruct (Py.is_empty (Py.strip content));
    destruct (Py.truthy_str template); reflexivity.
Qed.

Ltac plain_event :=
  unfold is_plain, plain; simpl;
  rewrite ?generate_prompt_not_format, ?reauthor_prompt_not_format;
  reflexivity.

Section Stages.

Variable env : Env.

Lemma send_to_openai_plain prompt model options :
  Py.startswith prompt
    "Format the following content to match the provided template structure"
  = false ->
  appends is_plain (send_to_openai_api_async env prompt model options).
Proof.
  intro Hp. unfold send_to_openai_api_async, logger_error, st_error.
  appends_steps ltac:(unfold is_plain, plain; simpl; rewrite ?Hp; reflexivity).
Qed.

Lemma generate_content_plain title content perspectives model options :
  appends is_plain
    (generate_content env title content perspectives model options).
Proof.
  unfold generate_content, logger_debug, logger_error.
  apply appends_bind; [appends_steps plain_event | intros _].
  apply appends_bind;
    [apply send_to_openai_plain, generate_prompt_not_format | intros g].
  appends_steps plain_event.
Qed.

Lemma reauthor_content_plain content template perspectives model options :
  appends is_plain
    (reauthor_content env content template perspectives model options).
Proof.
  unfold reauthor_content, logger_debug, logger_error.
  apply appends_bind; [appends_steps plain_event | intros _].
  apply appends_bind;
    [apply send_to_openai_plain, reauthor_prompt_not_format | intros g].
  appends_steps plain_event.
Qed.

Lemma content_stage_plain title content options model template :
  appends is_plain (content_stage env title content options model template).
Proof.
  unfold content_stage, logger_debug.
  destruct (Py.mem "Generate Content" (Actions options)).
  - apply appends_bind; [apply generate_content_plain | intros pc].
    appends_steps plain_event.
  - destruct (Py.mem "Reauthor Content" (Actions options)
              || Py.mem "Format to Template" (Actions options)).
    + apply appends_bind; [apply reauthor_content_plain | intros pc].
      appends_steps plain_event.
    + apply appends_ret.
Qed.

Lemma translation_loop_plain title pc model options languages :
  forall results,
    appends is_plain
      (translation_loop env title pc model options languages results).
Proof.
  induction languages as [| lang rest IH]; intro results; simpl.
  - apply appends_ret.
  - unfold logger_debug.
    apply appends_bind; [appends_steps plain_event | intros [translated |]].
    + apply appends_bind; [appends_steps plain_event | intros _].
      apply appends_bind; [appends_steps plain_event | intros docx].
      apply IH.
    + apply appends_raise.
Qed.

Lemma translation_stage_plain title pc options model results :
  appends is_plain (translation_stage env title pc options model results).
Proof.
  unfold translation_stage.
  destruct (Py.mem "Translate" (Actions options)).
  - apply translation_loop_plain.
  - appends_steps plain_event.
Qed.

Lemma content_stage_events title content options model template :
  appends (fun e => content_stage_event e = true)
          (content_stage env title content options model template).
Proof.
  unfold content_stage, generate_content, reauthor_content,
    send_to_openai_api_async, logger_debug, logger_error, st_error.
  appends_steps ltac:(reflexivity).
Qed.

Lemma translation_stage_events title pc options model results :
  appends (fun e => translation_stage_event e = true)
          (translation_stage env title pc options model results).
Proof.
  unfold translation_stage.
  destruct (Py.mem "Translate" (Actions options));
    [| appends_steps ltac:(reflexivity)].
  generalize results.
  induction (Translation_Languages options) as [| lang rest IH];
    intro rs; simpl.
  - apply appends_ret.
  - unfold logger_debug.
    apply appends_bind; [appends_steps ltac:(reflexivity) | intros [t |]].
    + apply appends_bind; [appends_steps ltac:(reflexivity) | intros _].
      apply appends_bind; [appends_steps ltac:(reflexivity) | intros docx].
      apply IH.
    + apply appends_raise.
Qed.

End Stages.

Lemma plain_no_sections d : Forall is_plain d -> sections_calls d = [].
Proof.
  intro H. apply flat_map_none. eapply Forall_impl; [| exact H].
  intros e He. unfold is_plain, plain in He.
  destruct e; try reflexivity.
  rewrite !andb_false_r in He. discriminate He.
Qed.

Lemma plain_no_progress d : Forall is_plain d -> progress_updates d = [].
Proof.
  intro H. apply flat_map_none. eapply Forall_impl; [| exact H].
  intros e He. unfold is_plain, plain in He.
  destruct e; try reflexivity.
  rewrite !andb_false_r in He. discriminate He.
Qed.

Lemma plain_no_article_logs d : Forall is_plain d -> article_logs d = [].
Proof.
  intro H. apply filter_none. eapply Forall_impl; [| exact H].
  intros e He. unfold is_plain, plain in He.
  apply andb_prop in He. destruct He as [He _].
  apply andb_prop in He. destruct He as [He _].
  apply negb_true_iff in He. exact He.
Qed.

Lemma plain_no_format_marks d :
  Forall is_plain d -> filter from_format_to_template d = [].
Proof.
  intro H. apply filter_none. eapply Forall_impl; [| exact H].
  intros e He. unfold is_plain, plain in He.
  apply andb_prop in He. destruct He as [He _].
  apply andb_prop in He. destruct He as [_ He].
  apply negb_true_iff in He. exact He.
Qed.

Lemma content_events_no_exports d :
  Forall (fun e => content_stage_event e = true) d ->
  exports d = [] /\ translate_calls d = [].
Proof.
  intro H. split; apply flat_map_none; (eapply Forall_impl; [| exact H]);
    intros e He; destruct e; try reflexivity; discriminate He.
Qed.

Lemma translation_events_no_chat d :
  Forall (fun e => translation_stage_event e = true) d ->
  chat_prompts d = [].
Proof.
  intro H. apply flat_map_none. eapply Forall_impl; [| exact H].
  intros e He; destruct e; try reflexivity; discriminate He.
Qed.


(** ** The content stage *)

Section Content.

Variable env : Env.

Lemma generate_content_call title content perspectives model options w :
  content_call env "Generating content"
    (generate_prompt title content perspectives) content model
    (generate_content env title content perspectives model options) w.
Proof.
  unfold content_call, generate_content, send_to_openai_api_async,
    get_openai_client, chat_completion, logger_debug, logger_error, st_error,
    bind, emit, ret, content_or_reply.
  cbv zeta.
  destruct (get_openai_client_raises env _).
  - exists []. rewrite <- app_assoc.
    split; [reflexivity |]. split; [reflexivity |]. split; constructor.
  - destruct (chat_completions_create env _ model _) as [text | msg].
    + rewrite strip_strip_empty.
      destruct (Py.is_empty (Py.strip text)); rewrite <- !app_assoc;
        eexists; (split; [reflexivity |]); (split; [reflexivity |]);
        (split; [discriminate |]);
        repeat (constructor; [intro; reflexivity |]); constructor.
    + rewrite <- !app_assoc.
      eexists; (split; [reflexivity |]); (split; [reflexivity |]);
        (split; [discriminate |]);
        repeat (constructor; [intro; reflexivity |]); constructor.
Qed.

Lemma reauthor_content_call content template perspectives model options w :
  content_call env "Reauthoring content"
    (reauthor_prompt content template perspectives) content model
    (reauthor_content env content template perspectives model options) w.
Proof.
  unfold content_call, reauthor_content, send_to_openai_api_async,
    get_openai_client, chat_completion, logger_debug, logger_error, st_error,
    bind, emit, ret, content_or_reply.
  cbv zeta.
  destruct (get_openai_client_raises env _).
  - exists []. rewrite <- app_assoc.
    split; [reflexivity |]. split; [reflexivity |]. split; constructor.
  - destruct (chat_completions_create env _ model _) as [text | msg].
    + rewrite strip_strip_empty.
      destruct (Py.is_empty (Py.strip text)); rewrite <- !app_assoc;
        eexists; (split; [reflexivity |]); (split; [reflexivity |]);
        (split; [discriminate |]);
        repeat (constructor; [intro; reflexivity |]); constructor.
    + rewrite <- !app_assoc.
      eexists; (split; [reflexivity |]); (split; [reflexivity |]);
        (split; [discriminate |]);
        repeat (constructor; [intro; reflexivity |]); constructor.
Qed.

(** A content call followed by a log record is a content call. *)
Lemma content_call_then_log opening prompt content model m (msg : string -> string)
      w :
  content_call env opening prompt content model m w ->
  content_call env opening prompt content model
    (processed_content <- m ;;
     logger_debug (msg processed_content) ;;
     ret processed_content) w.
Proof.
  unfold content_call. cbv zeta. intros [d [E [Hp [Hr Hf]]]].
  unfold bind at 1. rewrite E.
  destruct (get_openai_client_raises env _).
  - exists d. repeat split; assumption.
  - unfold bind, logger_debug, emit, ret.
    eexists (d ++ [_])%list.
    split; [f_equal; rewrite <- app_assoc; reflexivity |].
    split; [| split; [discriminate |]].
    + unfold chat_prompts in *. rewrite flat_map_app, Hp. reflexivity.
    + apply Forall_app. split; [exact Hf |].
      constructor; [intro; reflexivity | constructor].
Qed.

(** The content stage, case by case. *)

Lemma content_stage_generate title content options model template w :
  Py.mem "Generate Content" (Actions options) = true ->
  content_call env "Generating content"
    (generate_prompt title content (Perspective options)) content model
    (content_stage env title content options model template) w.
Proof.
  intro Hg. unfold content_stage. rewrite Hg.
  apply (content_call_then_log _ _ _ _ _
           (fun pc => "Content after generation: "
                      ++ Py.slice_to 100 pc ++ "...")).
  apply generate_content_call.
Qed.

Lemma content_stage_reauthor title content options model template w :
  Py.mem "Generate Content" (Actions options) = false ->
  Py.mem "Reauthor Content" (Actions options)
  || Py.mem "Format to Template" (Actions options) = true ->
  content_call env "Reauthoring content"
    (reauthor_prompt content template (Perspective options)) content model
    (content_stage env title content options model template) w.
Proof.
  intros Hg Hrf. unfold content_stage. rewrite Hg, Hrf.
  apply (content_call_then_log _ _ _ _ _
           (fun pc => "Content after reauthoring and/or formatting: "
                      ++ Py.slice_to 100 pc ++ "...")).
  apply reauthor_content_call.
Qed.

Lemma content_stage_pass title content options model template w :
  Py.mem "Generate Content" (Actions options) = false ->
  Py.mem "Reauthor Content" (Actions options)
  || Py.mem "Format to Template" (Actions options) = false ->
  content_stage env title content options model template w
  = (Returns content, w).
Proof. intros Hg Hrf. unfold content_stage. rewrite Hg, Hrf. reflexivity. Qed.

(** One run of a content call: it returns exactly when the call for the
    client did not raise, and then after one request; otherwise it ends
    in [OpenAIError] right after that call, and no request was sent. *)
Lemma content_call_run opening prompt content model m w :
  content_call env opening prompt content model m w ->
  exists out d,
    m w = (out, (w ++ d)%list)
    /\ In (Log DEBUG opening) d
    /\ (unhindered env w d = true <-> exists pc, out = Returns pc)
    /\ (forall e, out = Raises e ->
          e = Py.OpenAIError
          /\ d = [Log DEBUG opening; GetOpenAIClient]
          /\ get_openai_client_raises env (w ++ [Log DEBUG opening])%list
             = true)
    /\ (forall pc, out = Returns pc ->
          chat_prompts d = [prompt]
          /\ exists reply, pc = content_or_reply content reply)
    /\ chat_prompts d = (if unhindered env w d then [prompt] else []).
Proof.
  unfold content_call. cbv zeta. intros [d [E [Hp [Hr Hf]]]].
  eexists. exists (Log DEBUG opening :: GetOpenAIClient :: d).
  split; [exact E |]. split; [left; reflexivity |].
  assert (Hu : unhindered env w (Log DEBUG opening :: GetOpenAIClient :: d)
               = negb (get_openai_client_raises env
                         (w ++ [Log DEBUG opening])%list)).
  { unfold unhindered. cbn [all_calls call_answered andb].
    fold (unhindered env ((w ++ [Log DEBUG opening]) ++ [GetOpenAIClient])%list
            d).
    rewrite (unhindered_true env d Hf). apply andb_true_r. }
  rewrite Hu.
  destruct (get_openai_client_raises env (w ++ [Log DEBUG opening])%list).
  - split; [| split; [| split]].
    + split; [discriminate | intros [pc H]; discriminate H].
    + intros e H. injection H as <-. rewrite (Hr eq_refl). auto.
    + intros pc H. discriminate H.
    + rewrite (Hr eq_refl). reflexivity.
  - split; [| split; [| split]].
    + split; [intros _; eexists; reflexivity | reflexivity].
    + intros e H. discriminate H.
    + intros pc H. injection H as <-. split; [exact Hp |].
      eexists. reflexivity.
    + exact Hp.
Qed.

(** The content stage as a whole. *)
Lemma content_stage_run title content options model template w :
  exists out d,
    content_stage env title content options model template w
    = (out, (w ++ d)%list)
    /\ (unhindered env w d = true <-> exists pc, out = Returns pc)
    /\ (forall e, out = Raises e ->
          e = Py.OpenAIError /\ chat_prompts d = []
          /\ exists pre,
               d = (pre ++ [GetOpenAIClient])%list
               /\ get_openai_client_raises env (w ++ pre)%list = true)
    /\ (forall pc, out = Returns pc ->
          chat_prompts d
          = (if Py.mem "Generate Content" (Actions options)
             then [generate_prompt title content (Perspective options)]
             else if Py.mem "Reauthor Content" (Actions options)
                     || Py.mem "Format to Template" (Actions options)
                  then [reauthor_prompt content template
                                        (Perspective options)]
                  else [])
          /\ exists reply,
               pc = (if Py.mem "Generate Content" (Actions options)
                        || (Py.mem "Reauthor Content" (Actions options)
                            || Py.mem "Format to Template" (Actions options))
                     then content_or_reply content reply
                     else content)).
Proof.
  destruct (Py.mem "Generate Content" (Actions options)) eqn:Hg.
  - destruct (content_call_run _ _ _ _ _ _
                (content_stage_generate title content options model template
                                        w Hg))
      as [out [d [E [_ [Hu [Hr [Hp _]]]]]]].
    exists out, d. split; [exact E |]. split; [exact Hu |]. split.
    + intros e He. destruct (Hr e He) as [-> [-> Hc]].
      split; [reflexivity |]. split; [reflexivity |].
      eexists [_]. split; [reflexivity | exact Hc].
    + exact Hp.
  - destruct (Py.mem "Reauthor Content" (Actions options)
              || Py.mem "Format to Template" (Actions options)) eqn:Hrf.
    + destruct (content_call_run _ _ _ _ _ _
                  (content_stage_reauthor title content options model
                                          template w Hg Hrf))
        as [out [d [E [_ [Hu [Hr [Hp _]]]]]]].
      exists out, d. split; [exact E |]. split; [exact Hu |]. split.
      * intros e He. destruct (Hr e He) as [-> [-> Hc]].
        split; [reflexivity |]. split; [reflexivity |].
        eexists [_]. split; [reflexivity | exact Hc].
      * exact Hp.
    + exists (Returns content), [].
      rewrite app_nil_r.
      split; [apply content_stage_pass; assumption |]. split; [| split].
      * split; [intros _; eexists; reflexivity | reflexivity].
      * intros e H. discriminate H.
      * intros pc H. injection H as <-. split; [reflexivity |].
        exists (ApiError EmptyString). reflexivity.
Qed.

(** The perspective stage. *)
Lemma perspective_stage_run pc options w :
  perspective_stage env pc options w =
  if sectioning_applies options
  then (Returns (perspective_sections env pc (Perspective options)),
        w ++ [PerspectiveSections pc (Perspective options);
              Log DEBUG ("Content after applying perspectives: "
                         ++ Py.slice_to 100
                              (perspective_sections env pc
                                 (Perspective options))
                         ++ "...")])%list
  else (Returns pc, w).
Proof.
  unfold perspective_stage, sectioning_applies.
  destruct (Py.truthy_list (Perspective options)
            && negb (Py.mem "Reauthor Content" (Actions options)));
    [| reflexivity].
  unfold bind, prompt_utils_create_perspective_sections, logger_debug, emit,
    ret.
  rewrite <- app_assoc. reflexivity.
Qed.

End Content.

(** ** The translation stage *)

Section Translation.

Variable env : Env.

Lemma translation_loop_step title pc model options lang rest results w :
  translation_loop env title pc model options (lang :: rest) results w =
  match translate_reply env w pc lang with
  | None => (Raises Py.TypeError, w ++ [TranslateCall pc lang model])%list
  | Some translated =>
      let w1 :=
        (w ++ [TranslateCall pc lang model;
               Log DEBUG ("Translated content (" ++ lang ++ "): "
                          ++ Py.slice_to 100 translated ++ "...")])%list in
      translation_loop env title pc model options rest
        (results ++ [make_result (save_as_word_reply env w1 translated)
                                 (title ++ "_" ++ lang) translated lang])%list
        (w1 ++ [SaveAsWord translated])%list
  end.
Proof.
  simpl. unfold bind at 1. unfold prompt_utils_translate_content.
  destruct (translate_reply env w pc lang) as [translated |];
    [| reflexivity].
  unfold bind, logger_debug, emit, pandoc_utils_save_as_word.
  rewrite <- !app_assoc. reflexivity.
Qed.

(** One run of the loop.  It calls the translation helper for the
    languages in turn, always on the same content, and stops at the
    first call that comes back as [None], where the slice of line 71
    raises [TypeError]; when no call does, it returns the list it was
    given followed by one result per language, each exported. *)
Lemma translation_loop_run title pc model options languages :
  forall results w,
    exists out d k,
      translation_loop env title pc model options languages results w
      = (out, (w ++ d)%list)
      /\ k <= List.length languages
      /\ (languages <> [] -> 0 < k)
      /\ translate_calls d
         = map (fun l => (pc, l, model)) (firstn k languages)
      /\ (unhindered env w d = true <-> exists rs, out = Returns rs)
      /\ (forall rs, out = Returns rs ->
            k = List.length languages
            /\ exists new,
                 rs = (results ++ new)%list
                 /\ map result_lang new = languages
                 /\ map result_title new
                    = map (fun l => title ++ "_" ++ l) languages
                 /\ exports d = map result_text new)
      /\ (forall e, out = Raises e ->
            e = Py.TypeError
            /\ exists pre l,
                 d = (pre ++ [TranslateCall pc l model])%list
                 /\ In l languages
                 /\ translate_reply env (w ++ pre)%list pc l = None).
Proof.
  induction languages as [| lang rest IH]; intros results w.
  - exists (Returns results), [], 0. rewrite app_nil_r.
    split; [reflexivity |]. split; [apply le_n |].
    split; [intro H; contradiction H; reflexivity |].
    split; [reflexivity |].
    split; [split; [intros _; eexists; reflexivity | reflexivity] |].
    split.
    + intros rs H. injection H as <-. split; [reflexivity |].
      exists []. rewrite app_nil_r. repeat split.
    + intros e H. discriminate H.
  - rewrite translation_loop_step.
    destruct (translate_reply env w pc lang) as [translated |] eqn:R.
    + cbv zeta.
      match goal with
      | |- context [translation_loop env title pc model options rest ?rs ?w1] =>
          destruct (IH rs w1)
            as [out [d [k [E [Hk [Hpos [Hc [Hu [Hret Hraise]]]]]]]]]
      end.
      exists out.
      eexists (TranslateCall pc lang model :: Log DEBUG _
                 :: SaveAsWord translated :: d).
      exists (S k).
      rewrite E.
      split; [f_equal; rewrite <- !app_assoc; reflexivity |].
      split; [cbn [List.length]; lia |]. split; [intros _; lia |].
      split; [unfold translate_calls in *; cbn [flat_map firstn map app];
              rewrite Hc; reflexivity |].
      split; [| split].
      * rewrite <- Hu. unfold unhindered.
        cbn [all_calls call_answered]. rewrite R. cbn [andb].
        rewrite <- !app_assoc. reflexivity.
      * intros rs H. destruct (Hret rs H) as [-> [new [-> [Hl [Ht He]]]]].
        split; [reflexivity |].
        eexists (_ :: new). rewrite <- app_assoc.
        split; [reflexivity |].
        cbn [map result_lang result_title make_result].
        rewrite Hl, Ht. split; [reflexivity |]. split; [reflexivity |].
        unfold exports in *. cbn [flat_map app map result_text].
        rewrite He. reflexivity.
      * intros e H.
        destruct (Hraise e H) as [-> [pre [l [-> [Hin Hn]]]]].
        split; [reflexivity |].
        eexists (TranslateCall pc lang model :: Log DEBUG _
                   :: SaveAsWord translated :: pre), l.
        split; [reflexivity |]. split; [right; exact Hin |].
        rewrite <- Hn. f_equal. rewrite <- !app_assoc. reflexivity.
    + exists (Raises Py.TypeError), [TranslateCall pc lang model], 1.
      split; [reflexivity |]. split; [cbn [List.length]; lia |].
      split; [intros _; lia |]. split; [reflexivity |].
      split; [| split].
      * unfold unhindered. cbn [all_calls call_answered]. rewrite R.
        split; [discriminate | intros [rs H]; discriminate H].
      * intros rs H. discriminate H.
      * intros e H. injection H as <-. split; [reflexivity |].
        exists [], lang. rewrite app_nil_r.
        split; [reflexivity |]. split; [left; reflexivity | exact R].
Qed.

Lemma translation_stage_original title pc options model results w :
  Py.mem "Translate" (Actions options) = false ->
  translation_stage env title pc options model results w =
  (Returns (results ++ [make_result (save_as_word_reply env w pc) title pc
                                    "Original"])%list,
   (w ++ [SaveAsWord pc])%list).
Proof. unfold translation_stage. intros ->. reflexivity. Qed.

Lemma translation_stage_translate title pc options model results w :
  Py.mem "Translate" (Actions options) = true ->
  translation_stage env title pc options model results w =
  translation_loop env title pc model options
                   (Translation_Languages options) results w.
Proof. unfold translation_stage. intros ->. reflexivity. Qed.

(** One run of the translation stage, started with no result. *)
Lemma translation_stage_run title pc options model w :
  exists out d k,
    translation_stage env title pc options model [] w = (out, (w ++ d)%list)
    /\ k <= List.length (Translation_Languages options)
    /\ (Translation_Languages options <> [] -> 0 < k)
    /\ translate_calls d
       = (if Py.mem "Translate" (Actions options)
          then map (fun l => (pc, l, model))
                   (firstn k (Translation_Languages options))
          else [])
    /\ (unhindered env w d = true <-> exists rs, out = Returns rs)
    /\ (forall rs, out = Returns rs ->
          map result_lang rs = article_tags options
          /\ map result_title rs = article_titles options title
          /\ exports d = map result_text rs
          /\ (Py.mem "Translate" (Actions options) = true ->
              k = List.length (Translation_Languages options))
          /\ (Py.mem "Translate" (Actions options) = false ->
              rs = [make_result (save_as_word_reply env w pc) title pc
                                "Original"]
              /\ d = [SaveAsWord pc]))
    /\ (forall e, out = Raises e ->
          e = Py.TypeError
          /\ Py.mem "Translate" (Actions options) = true
          /\ exists pre l,
               d = (pre ++ [TranslateCall pc l model])%list
               /\ In l (Translation_Languages options)
               /\ translate_reply env (w ++ pre)%list pc l = None).
Proof.
  unfold article_tags, article_titles.
  destruct (Py.mem "Translate" (Actions options)) eqn:Ht.
  - rewrite (translation_stage_translate _ _ _ _ _ _ Ht).
    destruct (translation_loop_run title pc model options
                (Translation_Languages options) [] w)
      as [out [d [k [E [Hk [Hpos [Hc [Hu [Hret Hraise]]]]]]]]].
    exists out, d, k.
    split; [exact E |]. split; [exact Hk |]. split; [exact Hpos |].
    split; [exact Hc |]. split; [exact Hu |]. split.
    + intros rs H. destruct (Hret rs H) as [Hl [new [-> [Hn [Hti He]]]]].
      cbn [app]. split; [exact Hn |]. split; [exact Hti |].
      split; [exact He |]. split; [intros _; exact Hl | discriminate].
    + intros e H. destruct (Hraise e H) as [-> Hp].
      split; [reflexivity |]. split; [reflexivity | exact Hp].
  - rewrite (translation_stage_original _ _ _ _ _ _ Ht).
    eexists. exists [SaveAsWord pc], (List.length (Translation_Languages options)).
    split; [reflexivity |]. split; [apply le_n |]. split.
    { destruct (Translation_Languages options); [intro H; contradiction H; reflexivity |].
      intros _. cbn [List.length]. lia. }
    split; [reflexivity |].
    split; [split; [intros _; eexists; reflexivity | reflexivity] |].
    split.
    + intros rs H. injection H as <-. cbn [app].
      split; [reflexivity |]. split; [reflexivity |].
      split; [reflexivity |]. split; [discriminate |].
      intros _. split; reflexivity.
    + intros e H. discriminate H.
Qed.

(** What one run of a stage shows, given the run. *)

Lemma content_stage_facts title content options model template w out d :
  content_stage env title content options model template w
  = (out, (w ++ d)%list) ->
  Forall is_plain d
  /\ Forall (fun e => content_stage_event e = true) d
  /\ (unhindered env w d = true <-> exists pc, out = Returns pc)
  /\ (forall e, out = Raises e ->
        e = Py.OpenAIError /\ chat_prompts d = []
        /\ exists pre,
             d = (pre ++ [GetOpenAIClient])%list
             /\ get_openai_client_raises env (w ++ pre)%list = true)
  /\ (forall pc, out = Returns pc ->
        chat_prompts d
        = (if Py.mem "Generate Content" (Actions options)
           then [generate_prompt title content (Perspective options)]
           else if Py.mem "Reauthor Content" (Actions options)
                   || Py.mem "Format to Template" (Actions options)
                then [reauthor_prompt content template
                                      (Perspective options)]
                else [])
        /\ exists reply,
             pc = (if Py.mem "Generate Content" (Actions options)
                      || (Py.mem "Reauthor Content" (Actions options)
                          || Py.mem "Format to Template" (Actions options))
                   then content_or_reply content reply
                   else content)).
Proof.
  intro E.
  split; [exact (appends_run _ _ _ _ _
                   (content_stage_plain env title content options model
                                        template) E) |].
  split; [exact (appends_run _ _ _ _ _
                   (content_stage_events env title content options model
                                         template) E) |].
  destruct (content_stage_run env title content options model template w)
    as [out' [d' [E' H]]].
  rewrite E in E'. injection E' as <- Hd. apply app_inv_head in Hd.
  subst d'. exact H.
Qed.

Lemma translation_stage_facts title pc options model w out d :
  translation_stage env title pc options model [] w = (out, (w ++ d)%list) ->
  Forall is_plain d
  /\ Forall (fun e => translation_stage_event e = true) d
  /\ exists k,
       k <= List.length (Translation_Languages options)
       /\ (Translation_Languages options <> [] -> 0 < k)
       /\ translate_calls d
          = (if Py.mem "Translate" (Actions options)
             then map (fun l => (pc, l, model))
                      (firstn k (Translation_Languages options))
             else [])
       /\ (unhindered env w d = true <-> exists rs, out = Returns rs)
       /\ (forall rs, out = Returns rs ->
             map result_lang rs = article_tags options
             /\ map result_title rs = article_titles options title
             /\ exports d = map result_text rs
             /\ (Py.mem "Translate" (Actions options) = true ->
                 k = List.length (Translation_Languages options))
             /\ (Py.mem "Translate" (Actions options) = false ->
                 rs = [make_result (save_as_word_reply env w pc) title pc
                                   "Original"]
                 /\ d = [SaveAsWord pc]))
       /\ (forall e, out = Raises e ->
             e = Py.TypeError
             /\ Py.mem "Translate" (Actions options) = true
             /\ exists pre l,
                  d = (pre ++ [TranslateCall pc l model])%list
                  /\ In l (Translation_Languages options)
                  /\ translate_reply env (w ++ pre)%list pc l = None).
Proof.
  intro E.
  split; [exact (appends_run _ _ _ _ _
                   (translation_stage_plain env title pc options model []) E)
         |].
  split; [exact (appends_run _ _ _ _ _
                   (translation_stage_events env title pc options model [])
                   E) |].
  destruct (translation_stage_run title pc options model w)
    as [out' [d' [k [E' H]]]].
  rewrite E in E'. injection E' as <- Hd. apply app_inv_head in Hd.
  subst d'. exists k. exact H.
Qed.

(** ** The pipeline as the sequence of its three stages *)

(** One run of [process_article_async]: the two opening records, the
    content stage and, unless that raised, the perspective stage and the
    translation stage. *)
Lemma process_article_async_run title content options model template w :
  let opening :=
    [Log DEBUG ("Processing article: " ++ title);
     Log DEBUG ("Initial content: " ++ Py.slice_to 100 content ++ "...")] in
  exists stage d1,
    content_stage env title content options model template
                  (w ++ opening)%list
    = (stage, ((w ++ opening) ++ d1)%list)
    /\ match stage with
       | Raises e =>
           process_article_async env title content options model template w
           = (Raises e, (w ++ opening ++ d1)%list)
       | Returns pc1 =>
           let pc2 :=
             if sectioning_applies options
             then perspective_sections env pc1 (Perspective options)
             else pc1 in
           let d2 :=
             if sectioning_applies options
             then [PerspectiveSections pc1 (Perspective options);
                   Log DEBUG ("Content after applying perspectives: "
                              ++ Py.slice_to 100 pc2 ++ "...")]
             else [] in
           let w2 := (((w ++ opening) ++ d1) ++ d2)%list in
           exists out d3,
             translation_stage env title pc2 options model [] w2
             = (out, (w2 ++ d3)%list)
             /\ process_article_async env title content options model
                                      template w
                = (out, (w ++ opening ++ d1 ++ d2 ++ d3)%list)
       end.
Proof.
  intro opening.
  destruct (content_stage_plain env title content options model template
              (w ++ opening)%list) as [d1 [E1 _]].
  destruct (content_stage env title content options model template
              (w ++ opening)%list) as [stage w1] eqn:E.
  simpl in E1. subst w1.
  exists stage, d1. split; [reflexivity |].
  assert (Hrun :
            process_article_async env title content options model template w
            = bind (content_stage env title content options model template)
                (fun pc1 =>
                   bind (perspective_stage env pc1 options)
                     (fun pc2 =>
                        translation_stage env title pc2 options model []))
                (w ++ opening)%list).
  { unfold process_article_async, logger_debug.
    unfold bind at 1. unfold emit at 1.
    unfold bind at 1. unfold emit at 1.
    rewrite <- app_assoc. reflexivity. }
  rewrite Hrun. clear Hrun.
  destruct stage as [pc1 | e]; unfold bind at 1; rewrite E.
  - cbv zeta. unfold bind. rewrite perspective_stage_run.
    destruct (sectioning_applies options).
    + match goal with
      | |- context [translation_stage env title ?pc options model [] ?w2] =>
          destruct (translation_stage_plain env title pc options model []
                      w2) as [d3 [E3 _]];
          destruct (translation_stage env title pc options model [] w2)
            as [out w3] eqn:Et
      end.
      simpl in E3. subst w3. exists out, d3.
      split; [reflexivity | rewrite <- !app_assoc; reflexivity].
    + rewrite app_nil_r.
      match goal with
      | |- context [translation_stage env title ?pc options model [] ?w2] =>
          destruct (translation_stage_plain env title pc options model []
                      w2) as [d3 [E3 _]];
          destruct (translation_stage env title pc options model [] w2)
            as [out w3] eqn:Et
      end.
      simpl in E3. subst w3. exists out, d3.
      split; [reflexivity | rewrite <- !app_assoc; reflexivity].
  - rewrite <- app_assoc. reflexivity.
Qed.

End Translation.

(** One run of [process_article_async], in the terms of what can be
    observed of it. *)
Lemma process_article_async_summary
      env title content options model template w :
  exists out d,
    process_article_async env title content options model template w
    = (out, (w ++ d)%list)
    /\ progress_updates d = []
    /\ article_logs d
       = [Log DEBUG ("Processing article: " ++ title);
          Log DEBUG ("Initial content: " ++ Py.slice_to 100 content ++ "...")]
    /\ filter from_format_to_template d = []
    /\ (unhindered env w d = true <-> exists rs, out = Returns rs)
    /\ (forall rs, out = Returns rs ->
          map result_lang rs = article_tags options
          /\ map result_title rs = article_titles options title
          /\ exports d = map result_text rs)
    /\ (forall e, out = Raises e ->
          (e = Py.OpenAIError
           /\ exists pre,
                d = (pre ++ [GetOpenAIClient])%list
                /\ get_openai_client_raises env (w ++ pre)%list = true)
          \/ (e = Py.TypeError
              /\ Py.mem "Translate" (Actions options) = true
              /\ exists pre c l,
                   d = (pre ++ [TranslateCall c l model])%list
                   /\ In l (Translation_Languages options)
                   /\ translate_reply env (w ++ pre)%list c l = None))
    /\ chat_prompts d
       = match out with
         | Raises Py.OpenAIError => []
         | _ =>
             if Py.mem "Generate Content" (Actions options)
             then [generate_prompt title content (Perspective options)]
             else if Py.mem "Reauthor Content" (Actions options)
                     || Py.mem "Format to Template" (Actions options)
                  then [reauthor_prompt content template
                                        (Perspective options)]
                  else []
         end
    /\ (Py.mem "Translate" (Actions options) = false ->
        translate_calls d = []).
Proof.
  destruct (process_article_async_run env title content options model
                                      template w) as [stage [d1 [E1 H]]].
  destruct (content_stage_facts env _ _ _ _ _ _ _ _ E1)
    as [F1 [G1 [U1 [R1 S1]]]].
  destruct (content_events_no_exports d1 G1) as [Hx1 Ht1].
  destruct stage as [pc1 | e].
  - cbv zeta in H. destruct H as [out [d3 [E3 E]]].
    destruct (translation_stage_facts env _ _ _ _ _ _ _ E3)
      as [F3 [G3 [k [Hk [Hpos [Hc [U3 [Ret3 Raise3]]]]]]]].
    destruct (S1 pc1 eq_refl) as [Hp1 _].
    assert (Hu1 : unhindered env
                    (w ++ [Log DEBUG ("Processing article: " ++ title);
                           Log DEBUG ("Initial content: "
                                      ++ Py.slice_to 100 content ++ "...")])%list
                    d1 = true)
      by (apply U1; eexists; reflexivity).
    exists out. eexists. split; [exact E |].
    split.
    { unfold progress_updates. rewrite !flat_map_app.
      fold (progress_updates d1). fold (progress_updates d3).
      rewrite (plain_no_progress d1 F1), (plain_no_progress d3 F3).
      destruct (sectioning_applies options); reflexivity. }
    split.
    { unfold article_logs. rewrite !filter_app.
      fold (article_logs d1). fold (article_logs d3).
      rewrite (plain_no_article_logs d1 F1), (plain_no_article_logs d3 F3).
      destruct (sectioning_applies options); reflexivity. }
    split.
    { rewrite !filter_app.
      rewrite (plain_no_format_marks d1 F1), (plain_no_format_marks d3 F3).
      destruct (sectioning_applies options); reflexivity. }
    split.
    { rewrite <- U3. rewrite !unhindered_app, Hu1.
      destruct (sectioning_applies options); reflexivity. }
    split.
    { intros rs Hrs. destruct (Ret3 rs Hrs) as [Hl [Hti [He _]]].
      split; [exact Hl |]. split; [exact Hti |].
      unfold exports in *. rewrite !flat_map_app, Hx1, He.
      destruct (sectioning_applies options); reflexivity. }
    split.
    { intros e He. right.
      destruct (Raise3 e He) as [-> [Htr [pre [l [-> [Hin Hn]]]]]].
      split; [reflexivity |]. split; [exact Htr |].
      eexists. eexists. exists l.
      split; [| split; [exact Hin |]].
      - rewrite !app_assoc. reflexivity.
      - rewrite <- Hn. f_equal. rewrite <- !app_assoc. reflexivity. }
    split.
    { assert (Hall : forall d2,
                 chat_prompts d2 = [] ->
                 chat_prompts
                   ([Log DEBUG ("Processing article: " ++ title);
                     Log DEBUG ("Initial content: "
                                ++ Py.slice_to 100 content ++ "...")]
                      ++ d1 ++ d2 ++ d3)%list
                 = chat_prompts d1).
      { intros d2 H2.
        pose proof (translation_events_no_chat d3 G3) as H3.
        unfold chat_prompts in *. rewrite !flat_map_app, H2, H3.
        cbn [flat_map app]. rewrite app_nil_r. reflexivity. }
      rewrite Hall by (destruct (sectioning_applies options); reflexivity).
      rewrite Hp1.
      destruct out as [rs | e]; [reflexivity |].
      destruct (Raise3 e eq_refl) as [-> _]. reflexivity. }
    { intro Htr. unfold translate_calls in *.
      rewrite !flat_map_app, Ht1, Hc, Htr.
      destruct (sectioning_applies options); reflexivity. }
  - destruct (R1 e eq_refl) as [-> [Hp1 [pre [Hd1 Hr]]]].
    exists (Raises Py.OpenAIError). eexists. split; [exact H |].
    split.
    { unfold progress_updates. rewrite !flat_map_app.
      fold (progress_updates d1).
      rewrite (plain_no_progress _ F1). reflexivity. }
    split.
    { unfold article_logs. rewrite !filter_app.
      fold (article_logs d1).
      rewrite (plain_no_article_logs _ F1). reflexivity. }
    split.
    { rewrite !filter_app, (plain_no_format_marks _ F1). reflexivity. }
    split.
    { split; [| intros [rs Hrs]; discriminate Hrs].
      rewrite unhindered_app. intro Hu.
      apply andb_prop in Hu. destruct Hu as [_ Hu].
      apply U1 in Hu. destruct Hu as [pc Hpc]. discriminate Hpc. }
    split; [intros rs Hrs; discriminate Hrs |].
    split.
    { intros e He. left. injection He as <-. split; [reflexivity |].
      rewrite Hd1. eexists. split; [rewrite app_assoc; reflexivity |].
      rewrite app_assoc. exact Hr. }
    split.
    { unfold chat_prompts in *. rewrite flat_map_app, Hp1. reflexivity. }
    { intros _. unfold translate_calls in *.
      rewrite flat_map_app, Ht1. reflexivity. }
Qed.

(** ** C1: how many results one article yields *)

(** C1, as the code has it.  For every article, every option set and
    every behaviour of the surroundings, a run of the pipeline returns
    exactly when each of its calls was answered: [get_openai_client] did
    not raise in it and none of its translation calls came back as
    [None].  What it returns is exactly one result, tagged "Original"
    and carrying the title, when Translate is not among the actions, and
    one result per translation language, in their order, when it is:
    none at all for an empty language list. *)
Theorem process_article_result_count
        env title content options model template w :
  exists out d,
    process_article_async env title content options model template w
    = (out, (w ++ d)%list)
    /\ (unhindered env w d = true <-> exists rs, out = Returns rs)
    /\ (Py.mem "Translate" (Actions options) = false ->
        translate_calls d = [])
    /\ (forall rs,
          out = Returns rs ->
          (Py.mem "Translate" (Actions options) = false ->
           exists r, rs = [r]
                     /\ result_lang r = "Original" /\ result_title r = title)
          /\ (Py.mem "Translate" (Actions options) = true ->
              List.length rs = List.length (Translation_Languages options)
              /\ map result_lang rs = Translation_Languages options)).
Proof.
  destruct (process_article_async_summary env title content options model
                                          template w)
    as [out [d [E [_ [_ [_ [Hu [Hret [_ [_ Htc]]]]]]]]]].
  exists out, d. split; [exact E |]. split; [exact Hu |].
  split; [exact Htc |].
  intros rs Hrs. destruct (Hret rs Hrs) as [Hl [Hti _]].
  unfold article_tags in Hl. unfold article_titles in Hti.
  split; intro Ht; rewrite Ht in Hl, Hti.
  - destruct rs as [| r [| r' rs]]; try discriminate Hl.
    exists r. split; [reflexivity |].
    injection Hl as Hl. injection Hti as Hti. split; assumption.
  - split; [| exact Hl]. rewrite <- Hl. symmetry. apply length_map.
Qed.

(** The theorem at work: one article with the Translate action and two
    languages, every call answered. *)
Lemma process_article_result_count_witness :
  exists rs d,
    process_article_async Sample.fine "Chocolate Cake"
      "write a recipe for chocolate cake"
      (Sample.options_of ["Generate Content"; "Translate"] []
                         ["French"; "Spanish"])
      "gpt-4" None []
    = (Returns rs, d)
    /\ unhindered Sample.fine [] d = true
    /\ List.length rs = 2
    /\ map result_lang rs = ["French"; "Spanish"].
Proof.
  destruct (process_article_result_count Sample.fine "Chocolate Cake"
              "write a recipe for chocolate cake"
              (Sample.options_of ["Generate Content"; "Translate"] []
                                 ["French"; "Spanish"])
              "gpt-4" None [])
    as [out [d [E [Hu [_ Hres]]]]].
  pose proof E as E'. vm_compute in E'. injection E' as <- <-.
  eexists. eexists. split; [exact E |].
  split; [apply Hu; eexists; reflexivity |].
  exact (proj2 (Hres _ eq_refl) eq_refl).
Defined.

(** C1 as stated fails: with Translate requested and no language given
    the pipeline returns no result at all, not one. *)
Lemma translate_without_languages_yields_no_result :
  let out :=
    outcome_of (process_article_async Sample.fine "Chocolate Cake"
                  "write a recipe for chocolate cake"
                  (Sample.options_of ["Generate Content"; "Translate"] [] [])
                  "gpt-4" None) [] in
  out = Returns [] /\ ~ (exists r, out = Returns [r]).
Proof.
  split; [reflexivity |]. intros [r Hr]. vm_compute in Hr. discriminate Hr.
Qed.

(** Nor does the pipeline return anything when the client cannot be
    built: the exception of line 23 leaves it. *)
Lemma missing_client_yields_no_result :
  outcome_of (process_article_async Sample.no_client "Chocolate Cake"
                "write a recipe for chocolate cake"
                (Sample.options_of ["Generate Content"] [] [])
                "gpt-4" None) []
  = Raises Py.OpenAIError.
Proof. reflexivity. Qed.

(** ** C3: what a stage produces when the model call fails *)

(** [generate_content] keeps the content it was given when the call
    fails or answers with blanks only (lines 95-97). *)
Lemma generate_content_fallback
      env title content perspectives model options w :
  let w0 := (w ++ [Log DEBUG "Generating content"])%list in
  get_openai_client_raises env w0 = false ->
  failed_or_blank
    (chat_completions_create env (w0 ++ [GetOpenAIClient])%list
       model (generate_prompt title content perspectives)) ->
  outcome_of (generate_content env title content perspectives model options) w
  = Returns content.
Proof.
  intros w0 Hc Hf. subst w0.
  destruct (generate_content_call env title content perspectives model
                                  options w) as [d [E _]].
  unfold outcome_of. rewrite E, Hc. cbn [fst]. f_equal.
  unfold content_or_reply.
  destruct (chat_completions_create env _ model _) as [text | msg];
    [| reflexivity].
  simpl in Hf. rewrite Hf. reflexivity.
Qed.

(** [reauthor_content] does the same (lines 122-124). *)
Lemma reauthor_content_fallback
      env content template perspectives model options w :
  let w0 := (w ++ [Log DEBUG "Reauthoring content"])%list in
  get_openai_client_raises env w0 = false ->
  failed_or_blank
    (chat_completions_create env (w0 ++ [GetOpenAIClient])%list
       model (reauthor_prompt content template perspectives)) ->
  outcome_of (reauthor_content env content template perspectives model options)
             w
  = Returns content.
Proof.
  intros w0 Hc Hf. subst w0.
  destruct (reauthor_content_call env content template perspectives model
                                  options w) as [d [E _]].
  unfold outcome_of. rewrite E, Hc. cbn [fst]. f_equal.
  unfold content_or_reply.
  destruct (chat_completions_create env _ model _) as [text | msg];
    [| reflexivity].
  simpl in Hf. rewrite Hf. reflexivity.
Qed.

(** [translate_content] hands on whatever the model client returned. *)
Lemma translate_content_outcome env content language model options w :
  let w0 := (w ++ [Log DEBUG ("Translating content to " ++ language)])%list in
  outcome_of (translate_content env content language model options) w
  = if get_openai_client_raises env w0
    then Raises Py.OpenAIError
    else Returns
           match chat_completions_create env (w0 ++ [GetOpenAIClient])%list
                   model (translate_prompt content language) with
           | Completion text => Some (Py.strip text)
           | ApiError _ => None
           end.
Proof.
  unfold outcome_of, translate_content, send_to_openai_api_async,
    get_openai_client, chat_completion, logger_debug, logger_error, st_error,
    bind, emit, ret.
  cbv zeta.
  destruct (get_openai_client_raises env _); [reflexivity |].
  destruct (chat_completions_create env _ model _); reflexivity.
Qed.

(** C3, at the failing input: [translate_content] of lines 134-137 has
    no fallback.  When the model call fails it returns [None], and when
    the model answers with blanks it returns the empty text; in neither
    case the content it was given. *)
Theorem translate_content_has_no_fallback :
  outcome_of (translate_content Sample.broken "Hello" "French" "gpt-4"
                (Sample.options_of ["Translate"] [] ["French"])) []
  = Returns None
  /\ outcome_of (translate_content Sample.blank "Hello" "French" "gpt-4"
                   (Sample.options_of ["Translate"] [] ["French"])) []
     = Returns (Some EmptyString)
  /\ outcome_of (generate_content Sample.broken "Title" "Hello" [] "gpt-4"
                   (Sample.options_of ["Generate Content"] [] [])) []
     = Returns "Hello"
  /\ outcome_of (reauthor_content Sample.blank "Hello" None [] "gpt-4"
                   (Sample.options_of ["Reauthor Content"] [] [])) []
     = Returns "Hello".
Proof. repeat split; reflexivity. Qed.

(** In the pipeline a translation that comes back as [None] is sliced at
    line 71, and the article ends in a [TypeError]. *)
Lemma failed_translation_raises :
  outcome_of (process_article_async Sample.broken "Chocolate Cake"
                "write a recipe for chocolate cake"
                (Sample.options_of ["Translate"] [] ["French"])
                "gpt-4" None) []
  = Raises Py.TypeError.
Proof. reflexivity. Qed.

(** ** C4: runs that end in an exception *)

(** C4, at the failing input: one article and an empty action set, with
    every model call and every export succeeding.  The total number of
    operations is zero and the division of line 153 raises
    [ZeroDivisionError] after the first article. *)
Theorem empty_action_set_aborts_batch :
  total_operations ["Chocolate Cake"] (Sample.options_of [] [] []) = 0
  /\ outcome_of (process_multiple_articles_async Sample.fine
                   ["Chocolate Cake"] ["write a recipe for chocolate cake"]
                   (Sample.options_of [] [] []) "gpt-4" None) []
     = Raises Py.ZeroDivisionError.
Proof. split; reflexivity. Qed.

(** One turn of the loop of [process_multiple_articles_async]. *)
Lemma batch_loop_step
      env options model template total title content rest all completed w :
  batch_loop env options model template total ((title, content) :: rest)
             all completed w =
  match process_article_async env title content options model template
          (w ++ [Log DEBUG ("Processing article: " ++ title)])%list with
  | (Returns results, w1) =>
      if (total =? 0)%nat
      then (Raises Py.ZeroDivisionError, w1)
      else batch_loop env options model template total rest
             (all ++ results)%list
             (completed + operations_per_article options)
             (w1 ++ [ProgressUpdate
                       (completed + operations_per_article options) total])%list
  | (Raises e, w1) => (Raises e, w1)
  end.
Proof.
  cbn [batch_loop]. unfold bind at 1. unfold logger_debug at 1.
  unfold emit at 1. unfold bind at 1.
  destruct (process_article_async env title content options model template
              (w ++ [Log DEBUG ("Processing article: " ++ title)])%list)
    as [[results | e] w1]; [| reflexivity].
  unfold bind at 1. unfold progress_bar_progress.
  destruct (total =? 0)%nat; reflexivity.
Qed.

Lemma process_multiple_articles_async_run
      env titles contents options model template w :
  process_multiple_articles_async env titles contents options model template w
  = match batch_loop env options model template
            (total_operations titles options) (Py.zip titles contents) [] 0
            (w ++ [ProgressBar 0])%list with
    | (Returns final, w') => (Returns (fst final), w')
    | (Raises e, w') => (Raises e, w')
    end.
Proof. reflexivity. Qed.

(** With no action the pipeline makes no call that could stop it. *)
Lemma process_article_async_without_action
      env title content options model template w :
  Actions options = [] ->
  exists rs w1,
    process_article_async env title content options model template w
    = (Returns rs, w1).
Proof.
  intro Hnil.
  unfold process_article_async, content_stage, perspective_stage,
    translation_stage.
  rewrite Hnil. cbn [Py.mem existsb orb negb].
  destruct (Py.truthy_list (Perspective options));
    unfold bind, logger_debug, emit, ret,
      prompt_utils_create_perspective_sections, pandoc_utils_save_as_word;
    eexists; eexists; reflexivity.
Qed.

(** The same happens for every article list with a first pair and every
    behaviour of the surroundings. *)
Lemma empty_action_set_always_aborts
      env title titles content contents options model template w :
  Actions options = [] ->
  outcome_of (process_multiple_articles_async env (title :: titles)
                (content :: contents) options model template) w
  = Raises Py.ZeroDivisionError.
Proof.
  intro Hnil. unfold outcome_of.
  rewrite process_multiple_articles_async_run.
  assert (Ht : total_operations (title :: titles) options = 0).
  { unfold total_operations, operations_per_article. rewrite Hnil. simpl.
    apply Nat.mul_0_r. }
  rewrite Ht. cbn [Py.zip]. rewrite batch_loop_step.
  destruct (process_article_async_without_action env title content options
              model template
              ((w ++ [ProgressBar 0])
                 ++ [Log DEBUG ("Processing article: " ++ title)])%list Hnil)
    as [rs [w1 E]].
  rewrite E. reflexivity.
Qed.

(** A null document among several results makes the archive fail:
    [create_zip_download] calls [getvalue] on [None] (line 293), which
    the per-result loop guards against (line 275). *)
Lemma null_document_aborts_archive :
  outcome_of (results <- process_multiple_articles_async Sample.broken
                           ["A"; "B"] ["a"; "b"]
                           (Sample.options_of ["Reauthor Content"] [] [])
                           "gpt-4" None ;;
              display_results results) []
  = Raises Py.AttributeError.
Proof. reflexivity. Qed.

(** An exception from [get_openai_client] (line 23) is outside the
    [try] of [send_to_openai_api_async] and ends the batch. *)
Lemma missing_client_aborts_batch :
  outcome_of (process_multiple_articles_async Sample.no_client
                ["A"; "B"] ["a"; "b"]
                (Sample.options_of ["Reauthor Content"] [] [])
                "gpt-4" None) []
  = Raises Py.OpenAIError.
Proof. reflexivity. Qed.

(** ** C8: the names of the files offered *)

(** C8, at the failing input: one article translated into two
    languages.  The pipeline stores "title_language" as the title of a
    translated result (line 76) and the presentation appends the
    language again (lines 279 and 293), so the files are offered as
    "Cake_French_French.docx" and "Cake_Spanish_Spanish.docx", alone and
    inside "kb_articles.zip". *)
Theorem translated_results_repeat_language_in_file_name :
  downloads
    (world_of (results <- process_article_async Sample.fine "Cake" "c"
                            (Sample.options_of ["Translate"] []
                                               ["French"; "Spanish"])
                            "gpt-4" None ;;
               display_results results) [])
  = [("Cake_French_French.docx", Document "French: c");
     ("Cake_Spanish_Spanish.docx", Document "Spanish: c");
     ("kb_articles.zip",
      Archive [("Cake_French_French.docx", "French: c");
               ("Cake_Spanish_Spanish.docx", "Spanish: c")])]
  /\ docx_file_name "Cake" "French" = "Cake_French.docx".
Proof. split; reflexivity. Qed.

(** Without translation the name is "title_Original.docx". *)
Lemma original_result_file_name :
  downloads
    (world_of (results <- process_article_async Sample.fine "Cake" "c"
                            (Sample.options_of ["Reauthor Content"] [] [])
                            "gpt-4" None ;;
               display_results results) [])
  = [("Cake_Original.docx", Document "# Article")].
Proof. reflexivity. Qed.

(** ** C5: the model call of the content stage *)

Lemma str_app_assoc (a b c : string) : (a ++ b) ++ c = a ++ (b ++ c).
Proof. induction a as [| x a IH]; simpl; [reflexivity | rewrite IH; reflexivity]. Qed.

Lemma str_length_app (a b : string) :
  String.length (a ++ b) = String.length a + String.length b.
Proof. induction a as [| x a IH]; simpl; [reflexivity | rewrite IH; reflexivity]. Qed.

Lemma occurs_in_refl (s : string) : occurs_in s s.
Proof.
  exists EmptyString, EmptyString. simpl.
  induction s as [| c s IH]; simpl; [reflexivity | rewrite <- IH; reflexivity].
Qed.

Lemma occurs_in_app_l (sub a b : string) :
  occurs_in sub a -> occurs_in sub (a ++ b).
Proof.
  intros [before [after ->]]. exists before, (after ++ b).
  rewrite !str_app_assoc. reflexivity.
Qed.

Lemma occurs_in_app_r (sub a b : string) :
  occurs_in sub b -> occurs_in sub (a ++ b).
Proof.
  intros [before [after ->]]. exists (a ++ before), after.
  rewrite !str_app_assoc. reflexivity.
Qed.

(** With a template the reauthor prompt tells the model to use it as a
    guide for formatting, and then gives its text (line 110). *)
Lemma reauthor_prompt_with_template content template perspectives :
  Py.truthy_str template = true ->
  occurs_in (", using the provided template as a guide for formatting:"
             ++ Py.nl ++ Py.nl
             ++ "Template:" ++ Py.nl ++ Py.format_str template)
            (reauthor_prompt content template perspectives).
Proof.
  intro Ht. unfold reauthor_prompt. rewrite Ht. cbv zeta.
  exists (if Py.is_empty (Py.strip content)
          then "Generate a knowledge base article based on the following template:"
          else "Reauthor the following content").
  exists ((Py.nl ++ Py.nl ++ "Content to reauthor:")
          ++ (Py.nl ++ Py.nl ++ content ++ Py.nl ++ Py.nl)
          ++ perspectives_clause perspectives
          ++ "Provide the reauthored content directly, without any additional comments or questions.").
  rewrite !str_app_assoc. reflexivity.
Qed.

Lemma reauthor_prompt_template_text content template perspectives :
  Py.truthy_str template = true ->
  occurs_in ("Template:" ++ Py.nl ++ Py.format_str template)
            (reauthor_prompt content template perspectives).
Proof.
  intro Ht.
  destruct (reauthor_prompt_with_template content template perspectives Ht)
    as [before [after E]].
  exists (before
          ++ ", using the provided template as a guide for formatting:"
          ++ Py.nl ++ Py.nl), after.
  rewrite E, !str_app_assoc. reflexivity.
Qed.

(** Without one it is the prompt of line 112, which holds no template
    text. *)
Lemma reauthor_prompt_without_template content template perspectives :
  Py.truthy_str template = false ->
  reauthor_prompt content template perspectives
  = reauthor_prompt content None perspectives.
Proof. intro Ht. unfold reauthor_prompt. rewrite Ht. reflexivity. Qed.

Lemma reauthor_prompt_plain content perspectives :
  reauthor_prompt content None perspectives
  = (if Py.is_empty (Py.strip content)
     then "Generate a knowledge base article based on the following template:"
     else "Reauthor the following content")
    ++ ", maintaining its core information but improving its clarity, structure, and readability:"
    ++ Py.nl ++ Py.nl ++ content ++ Py.nl ++ Py.nl
    ++ perspectives_clause perspectives
    ++ "Provide the reauthored content directly, without any additional comments or questions.".
Proof.
  unfold reauthor_prompt. cbn [Py.truthy_str]. cbv zeta.
  rewrite !str_app_assoc. reflexivity.
Qed.

(** C5, as the code has it.  The content stage adds only to the trace
    and sends at most one prompt to the model.  It returns exactly when
    no call for the client raised; otherwise it ends in [OpenAIError]
    right after that call, and no prompt was sent.  When Generate
    Content is among the actions, whatever else is, [generate_content]
    is entered and the prompt of a run that returns is the Generate
    prompt; otherwise, when Reauthor Content or Format to Template is,
    [reauthor_content] is entered and the prompt is the reauthor prompt;
    otherwise nothing is sent and the content comes back unchanged.  The
    reauthor prompt carries the template text when a template with some
    text was supplied, and is the prompt of the template-less call
    otherwise. *)
Theorem content_stage_precedence env title content options model template w :
  let actions := Actions options in
  let perspectives := Perspective options in
  exists out d,
    content_stage env title content options model template w
    = (out, (w ++ d)%list)
    /\ List.length (chat_prompts d) <= 1
    /\ (unhindered env w d = true <-> exists pc, out = Returns pc)
    /\ (forall e,
          out = Raises e ->
          e = Py.OpenAIError /\ chat_prompts d = []
          /\ exists pre,
               d = (pre ++ [GetOpenAIClient])%list
               /\ get_openai_client_raises env (w ++ pre)%list = true)
    /\ (Py.mem "Generate Content" actions = true ->
        In (Log DEBUG "Generating content") d
        /\ chat_prompts d
           = (if unhindered env w d
              then [generate_prompt title content perspectives]
              else []))
    /\ (Py.mem "Generate Content" actions = false ->
        Py.mem "Reauthor Content" actions = true
        \/ Py.mem "Format to Template" actions = true ->
        In (Log DEBUG "Reauthoring content") d
        /\ chat_prompts d
           = (if unhindered env w d
              then [reauthor_prompt content template perspectives]
              else []))
    /\ (Py.mem "Generate Content" actions = false ->
        Py.mem "Reauthor Content" actions = false ->
        Py.mem "Format to Template" actions = false ->
        d = [] /\ out = Returns content)
    /\ (Py.truthy_str template = true ->
        occurs_in ("Template:" ++ Py.nl ++ Py.format_str template)
                  (reauthor_prompt content template perspectives))
    /\ (Py.truthy_str template = false ->
        reauthor_prompt content template perspectives
        = reauthor_prompt content None perspectives).
Proof.
  intros actions perspectives. subst actions perspectives.
  destruct (Py.mem "Generate Content" (Actions options)) eqn:Hg.
  - destruct (content_call_run env _ _ _ _ _ _
                (content_stage_generate env title content options model
                                        template w Hg))
      as [out [d [E [Hin [Hu [Hr [_ Hp]]]]]]].
    exists out, d. split; [exact E |].
    split; [rewrite Hp; destruct (unhindered env w d);
            cbn [List.length]; lia |].
    split; [exact Hu |]. split.
    { intros e He. destruct (Hr e He) as [-> [-> Hc]].
      split; [reflexivity |]. split; [reflexivity |].
      exists [Log DEBUG "Generating content"].
      split; [reflexivity | exact Hc]. }
    split; [intros _; split; [exact Hin | exact Hp] |].
    split; [discriminate |]. split; [discriminate |].
    split; [apply reauthor_prompt_template_text
           | apply reauthor_prompt_without_template].
  - destruct (Py.mem "Reauthor Content" (Actions options)
              || Py.mem "Format to Template" (Actions options)) eqn:Hrf.
    + destruct (content_call_run env _ _ _ _ _ _
                  (content_stage_reauthor env title content options model
                                          template w Hg Hrf))
        as [out [d [E [Hin [Hu [Hr [_ Hp]]]]]]].
      exists out, d. split; [exact E |].
      split; [rewrite Hp; destruct (unhindered env w d);
              cbn [List.length]; lia |].
      split; [exact Hu |]. split.
      { intros e He. destruct (Hr e He) as [-> [-> Hc]].
        split; [reflexivity |]. split; [reflexivity |].
        exists [Log DEBUG "Reauthoring content"].
        split; [reflexivity | exact Hc]. }
      split; [discriminate |].
      split; [intros _ _; split; [exact Hin | exact Hp] |].
      split.
      * intros _ Hr' Hf. rewrite Hr', Hf in Hrf. discriminate Hrf.
      * split; [apply reauthor_prompt_template_text
               | apply reauthor_prompt_without_template].
    + exists (Returns content), [].
      rewrite (content_stage_pass env title content options model template
                 w Hg Hrf).
      rewrite app_nil_r. split; [reflexivity |].
      split; [cbn [chat_prompts flat_map List.length]; lia |].
      split; [split; [intros _; eexists; reflexivity | reflexivity] |].
      split; [intros e He; discriminate He |].
      split; [discriminate |]. split.
      * intros _ [H | H]; rewrite H in Hrf;
          [| rewrite orb_true_r in Hrf]; discriminate Hrf.
      * split; [auto |].
        split; [apply reauthor_prompt_template_text
               | apply reauthor_prompt_without_template].
Qed.

(** The theorem at work: Generate takes precedence over Reauthor and
    Format; Format alone leads to the reauthor prompt with the template;
    Translate alone leaves the content as it is. *)
Lemma content_stage_precedence_witness :
  (exists out d,
      content_stage Sample.fine "Cake" "c"
        (Sample.options_of
           ["Reauthor Content"; "Format to Template"; "Generate Content"]
           [] [])
        "gpt-4" (Some "TPL") []
      = (out, d)
      /\ chat_prompts d = [generate_prompt "Cake" "c" []])
  /\ (exists out d,
         content_stage Sample.fine "Cake" "c"
           (Sample.options_of ["Format to Template"] [] [])
           "gpt-4" (Some "TPL") []
         = (out, d)
         /\ chat_prompts d = [reauthor_prompt "c" (Some "TPL") []]
         /\ occurs_in ("Template:" ++ Py.nl ++ "TPL")
                      (reauthor_prompt "c" (Some "TPL") []))
  /\ content_stage Sample.fine "Cake" "c"
       (Sample.options_of ["Translate"] [] ["French"])
       "gpt-4" (Some "TPL") []
     = (Returns "c", [])
  /\ reauthor_prompt "c" (Some EmptyString) [] = reauthor_prompt "c" None [].
Proof.
  split; [| split; [| split]].
  - destruct (content_stage_precedence Sample.fine "Cake" "c"
                (Sample.options_of
                   ["Reauthor Content"; "Format to Template";
                    "Generate Content"] [] [])
                "gpt-4" (Some "TPL") []) as [out [d [E [_ [_ [_ [Hg _]]]]]]].
    exists out, d. split; [exact E |].
    destruct (Hg eq_refl) as [_ Hp]. rewrite Hp.
    pose proof E as E'. vm_compute in E'. injection E' as _ <-.
    reflexivity.
  - destruct (content_stage_precedence Sample.fine "Cake" "c"
                (Sample.options_of ["Format to Template"] [] [])
                "gpt-4" (Some "TPL") [])
      as [out [d [E [_ [_ [_ [_ [Hr [_ [Ht _]]]]]]]]]].
    exists out, d. split; [exact E |]. split.
    + destruct (Hr eq_refl (or_intror eq_refl)) as [_ Hp]. rewrite Hp.
      pose proof E as E'. vm_compute in E'. injection E' as _ <-.
      reflexivity.
    + apply Ht. reflexivity.
  - destruct (content_stage_precedence Sample.fine "Cake" "c"
                (Sample.options_of ["Translate"] [] ["French"])
                "gpt-4" (Some "TPL") [])
      as [out [d [E [_ [_ [_ [_ [_ [Hn _]]]]]]]]].
    destruct (Hn eq_refl eq_refl eq_refl) as [-> ->]. exact E.
  - destruct (content_stage_precedence Sample.fine "Cake" "c"
                (Sample.options_of ["Translate"] [] ["French"])
                "gpt-4" (Some EmptyString) [])
      as [out [d [_ [_ [_ [_ [_ [_ [_ [_ He]]]]]]]]]].
    apply He. reflexivity.
Defined.

(** C5 as stated fails when the client cannot be built: Generate
    Content is selected, and the stage ends in the exception of line 23
    without having issued the Generate prompt, or any other. *)
Lemma content_stage_without_client_issues_no_prompt :
  let run :=
    content_stage Sample.no_client "Cake" "c"
      (Sample.options_of ["Generate Content"] [] []) "gpt-4" None [] in
  fst run = Raises Py.OpenAIError
  /\ snd run = [Log DEBUG "Generating content"; GetOpenAIClient]
  /\ chat_prompts (snd run) = [].
Proof. repeat split; reflexivity. Qed.

(** ** C6 and C9: what the whole pipeline adds to the trace *)

(** With Reauthor Content or Format to Template, and without Generate
    Content, a run of the content stage enters [reauthor_content]. *)
Lemma content_stage_enters_reauthor
      env title content options model template w out d :
  Py.mem "Generate Content" (Actions options) = false ->
  Py.mem "Reauthor Content" (Actions options)
  || Py.mem "Format to Template" (Actions options) = true ->
  content_stage env title content options model template w
  = (out, (w ++ d)%list) ->
  In (Log DEBUG "Reauthoring content") d.
Proof.
  intros Hg Hrf E.
  destruct (content_call_run env _ _ _ _ _ _
              (content_stage_reauthor env title content options model
                                      template w Hg Hrf))
    as [out' [d' [E' [Hin _]]]].
  rewrite E in E'. injection E' as _ Hd. apply app_inv_head in Hd.
  subst d'. exact Hin.
Qed.

(** C6, as the code has it.  In a run of the pipeline whose content
    stage returned, the perspective helper is called exactly once, on
    the content the content stage returned, when the perspective list
    is non-empty and Reauthor Content is not among the actions, and its
    answer is the content handed on: the text that is logged, exported
    and returned without Translate, and the text every translation call
    is made on with it.  Otherwise the helper is not called and the
    content of the content stage is handed on.  When the content stage
    raised, the run ends there and the helper is not called.  So the
    helper is never called when Reauthor Content was selected; it is
    called after a Generate pass; and it is called after
    [reauthor_content] ran for Format to Template alone. *)
Theorem perspective_sectioning_condition
        env title content options model template w :
  let opening :=
    [Log DEBUG ("Processing article: " ++ title);
     Log DEBUG ("Initial content: " ++ Py.slice_to 100 content ++ "...")] in
  exists out d stage d1,
    process_article_async env title content options model template w
    = (out, (w ++ d)%list)
    /\ content_stage env title content options model template
                     (w ++ opening)%list
       = (stage, ((w ++ opening) ++ d1)%list)
    /\ (forall e,
          stage = Raises e ->
          out = Raises e /\ d = (opening ++ d1)%list
          /\ sections_calls d = [])
    /\ (forall pc1,
          stage = Returns pc1 ->
          let pc2 :=
            if Py.truthy_list (Perspective options)
               && negb (Py.mem "Reauthor Content" (Actions options))
            then perspective_sections env pc1 (Perspective options)
            else pc1 in
          sections_calls d
          = (if Py.truthy_list (Perspective options)
                && negb (Py.mem "Reauthor Content" (Actions options))
             then [(pc1, Perspective options)]
             else [])
          /\ (Py.truthy_list (Perspective options)
              && negb (Py.mem "Reauthor Content" (Actions options)) = true ->
              In (Log DEBUG ("Content after applying perspectives: "
                             ++ Py.slice_to 100 pc2 ++ "...")) d)
          /\ (Py.mem "Translate" (Actions options) = false ->
              exports d = [pc2]
              /\ exists docx, out = Returns [(docx, title, pc2, "Original")])
          /\ (Py.mem "Translate" (Actions options) = true ->
              exists k,
                k <= List.length (Translation_Languages options)
                /\ (Translation_Languages options <> [] -> 0 < k)
                /\ translate_calls d
                   = map (fun l => (pc2, l, model))
                         (firstn k (Translation_Languages options))
                /\ (forall rs,
                      out = Returns rs ->
                      k = List.length (Translation_Languages options)
                      /\ exports d = map result_text rs)))
    /\ (Py.mem "Reauthor Content" (Actions options) = true ->
        sections_calls d = [])
    /\ (Py.mem "Generate Content" (Actions options) = true ->
        Py.mem "Reauthor Content" (Actions options) = false ->
        Perspective options <> [] ->
        forall pc1,
          stage = Returns pc1 ->
          sections_calls d = [(pc1, Perspective options)])
    /\ (Py.mem "Format to Template" (Actions options) = true ->
        Py.mem "Generate Content" (Actions options) = false ->
        Py.mem "Reauthor Content" (Actions options) = false ->
        Perspective options <> [] ->
        In (Log DEBUG "Reauthoring content") d1
        /\ forall pc1,
             stage = Returns pc1 ->
             sections_calls d = [(pc1, Perspective options)]).
Proof.
  intro opening.
  destruct (process_article_async_run env title content options model
                                      template w) as [stage [d1 [E1 H]]].
  fold opening in E1, H.
  destruct (content_stage_facts env _ _ _ _ _ _ _ _ E1)
    as [F1 [G1 [U1 [R1 S1]]]].
  destruct (content_events_no_exports d1 G1) as [Hx1 Ht1].
  pose proof (plain_no_sections d1 F1) as Hs1.
  assert (Hfmt : Py.mem "Format to Template" (Actions options) = true ->
                 Py.mem "Generate Content" (Actions options) = false ->
                 In (Log DEBUG "Reauthoring content") d1).
  { intros Hf Hg.
    apply (content_stage_enters_reauthor env title content options model
             template (w ++ opening)%list stage d1 Hg); [| exact E1].
    rewrite Hf. apply orb_true_r. }
  destruct stage as [pc1 | e].
  - cbv zeta in H. unfold sectioning_applies in H.
    destruct H as [out [d3 [E3 E]]].
    destruct (translation_stage_facts env _ _ _ _ _ _ _ E3)
      as [F3 [G3 [k [Hk [Hpos [Hc [U3 [Ret3 Raise3]]]]]]]].
    pose proof (plain_no_sections d3 F3) as Hs3.
    destruct (content_events_no_exports d1 G1) as [_ Htc1].
    exists out. eexists. exists (Returns pc1), d1.
    split; [exact E |]. split; [exact E1 |].
    split; [intros e He; discriminate He |].
    assert (Hs : sections_calls
                   (opening ++ d1
                      ++ (if Py.truthy_list (Perspective options)
                             && negb (Py.mem "Reauthor Content"
                                             (Actions options))
                          then [PerspectiveSections pc1 (Perspective options);
                                Log DEBUG
                                  ("Content after applying perspectives: "
                                   ++ Py.slice_to 100
                                        (if Py.truthy_list (Perspective options)
                                            && negb (Py.mem "Reauthor Content"
                                                            (Actions options))
                                         then perspective_sections env pc1
                                                (Perspective options)
                                         else pc1)
                                   ++ "...")]
                          else [])
                      ++ d3)%list
                 = (if Py.truthy_list (Perspective options)
                       && negb (Py.mem "Reauthor Content" (Actions options))
                    then [(pc1, Perspective options)]
                    else [])).
    { unfold sections_calls in *. rewrite !flat_map_app, Hs1, Hs3.
      destruct (Py.truthy_list (Perspective options)
                && negb (Py.mem "Reauthor Content" (Actions options)));
        reflexivity. }
    split; [| split; [| split]].
    + intros pc1' Hpc. injection Hpc as <-. cbv zeta.
      split; [exact Hs |]. split; [| split].
      * intro Hcond. rewrite Hcond.
        apply in_or_app. right. apply in_or_app. right.
        apply in_or_app. left. right. left. reflexivity.
      * intro Ht.
        rewrite (translation_stage_original env _ _ _ _ _ _ Ht) in E3.
        injection E3 as <- Hd3. apply app_inv_head in Hd3. subst d3.
        split; [| eexists; reflexivity].
        unfold exports in *. rewrite !flat_map_app, Hx1.
        destruct (Py.truthy_list (Perspective options)
                  && negb (Py.mem "Reauthor Content" (Actions options)));
          reflexivity.
      * intro Ht. rewrite Ht in Hc. exists k.
        split; [exact Hk |]. split; [exact Hpos |]. split.
        -- unfold translate_calls in *. rewrite !flat_map_app, Htc1, Hc.
           destruct (Py.truthy_list (Perspective options)
                     && negb (Py.mem "Reauthor Content" (Actions options)));
             reflexivity.
        -- intros rs Hrs. destruct (Ret3 rs Hrs) as [_ [_ [He [Hkl _]]]].
           split; [exact (Hkl Ht) |].
           unfold exports in *. rewrite !flat_map_app, Hx1, He.
           destruct (Py.truthy_list (Perspective options)
                     && negb (Py.mem "Reauthor Content" (Actions options)));
             reflexivity.
    + intro Hr. rewrite Hs, Hr, andb_false_r. reflexivity.
    + intros _ Hr Hp pc1' Hpc. injection Hpc as <-. rewrite Hs, Hr.
      destruct (Perspective options) as [| p ps];
        [contradiction Hp; reflexivity | reflexivity].
    + intros Hf Hg Hr Hp. split; [exact (Hfmt Hf Hg) |].
      intros pc1' Hpc. injection Hpc as <-. rewrite Hs, Hr.
      destruct (Perspective options) as [| p ps];
        [contradiction Hp; reflexivity | reflexivity].
  - assert (Hs : sections_calls (opening ++ d1)%list = []).
    { unfold sections_calls in *. rewrite flat_map_app, Hs1. reflexivity. }
    exists (Raises e), (opening ++ d1)%list, (Raises e), d1.
    split; [exact H |]. split; [exact E1 |].
    split; [intros e' He; injection He as <-; auto |].
    split; [intros pc1 Hpc; discriminate Hpc |].
    split; [intros _; exact Hs |].
    split; [intros _ _ _ pc1 Hpc; discriminate Hpc |].
    intros Hf Hg _ _. split; [exact (Hfmt Hf Hg) |].
    intros pc1 Hpc. discriminate Hpc.
Qed.

(** The theorem at work: after a Generate pass the helper is called, and
    what it answers is exported, or translated; with Reauthor Content
    selected it is not called; with Format to Template alone it is. *)
Lemma perspective_sectioning_condition_witness :
  (exists out d,
      process_article_async Sample.fine "Cake" "c"
        (Sample.options_of ["Generate Content"] ["Beginner"] [])
        "gpt-4" None []
      = (out, d)
      /\ sections_calls d = [("# Article", ["Beginner"])]
      /\ exports d = ["# Article [Beginner]"])
  /\ (exists out d,
         process_article_async Sample.fine "Cake" "c"
           (Sample.options_of ["Generate Content"; "Translate"] ["Beginner"]
                              ["French"])
           "gpt-4" None []
         = (out, d)
         /\ translate_calls d = [("# Article [Beginner]", "French", "gpt-4")])
  /\ (exists out d,
         process_article_async Sample.fine "Cake" "c"
           (Sample.options_of ["Reauthor Content"] ["Beginner"] [])
           "gpt-4" None []
         = (out, d)
         /\ sections_calls d = [])
  /\ (exists out d,
         process_article_async Sample.fine "Cake" "c"
           (Sample.options_of ["Format to Template"] ["Beginner"] [])
           "gpt-4" (Some "TPL") []
         = (out, d)
         /\ In (Log DEBUG "Reauthoring content") d
         /\ sections_calls d = [("# Article", ["Beginner"])]).
Proof.
  split; [| split; [| split]].
  - destruct (perspective_sectioning_condition Sample.fine "Cake" "c"
                (Sample.options_of ["Generate Content"] ["Beginner"] [])
                "gpt-4" None [])
      as [out [d [stage [d1 [E [E1 [_ [Hret [_ [Hgen _]]]]]]]]]].
    exists out, d. split; [exact E |].
    pose proof E1 as E1'. vm_compute in E1'. injection E1' as <- _.
    split.
    + apply (Hgen eq_refl eq_refl); [discriminate | reflexivity].
    + destruct (Hret _ eq_refl) as [_ [_ [Hx _]]].
      exact (proj1 (Hx eq_refl)).
  - destruct (perspective_sectioning_condition Sample.fine "Cake" "c"
                (Sample.options_of ["Generate Content"; "Translate"]
                                   ["Beginner"] ["French"])
                "gpt-4" None [])
      as [out [d [stage [d1 [E [E1 [_ [Hret _]]]]]]]].
    exists out, d. split; [exact E |].
    pose proof E1 as E1'. vm_compute in E1'. injection E1' as <- _.
    pose proof E as E'. vm_compute in E'. injection E' as Hout _.
    destruct (Hret _ eq_refl) as [_ [_ [_ Htr]]].
    destruct (Htr eq_refl) as [k [_ [_ [Hc Hk]]]].
    destruct (Hk _ (eq_sym Hout)) as [-> _]. exact Hc.
  - destruct (perspective_sectioning_condition Sample.fine "Cake" "c"
                (Sample.options_of ["Reauthor Content"] ["Beginner"] [])
                "gpt-4" None [])
      as [out [d [stage [d1 [E [_ [_ [_ [Hre _]]]]]]]]].
    exists out, d. split; [exact E | exact (Hre eq_refl)].
  - destruct (perspective_sectioning_condition Sample.fine "Cake" "c"
                (Sample.options_of ["Format to Template"] ["Beginner"] [])
                "gpt-4" (Some "TPL") [])
      as [out [d [stage [d1 [E [E1 [_ [_ [_ [_ Hfmt]]]]]]]]]].
    exists out, d. split; [exact E |].
    destruct Hfmt as [Hin Hs];
      [reflexivity | reflexivity | reflexivity | discriminate |].
    pose proof E1 as E1'. vm_compute in E1'. injection E1' as <- <-.
    pose proof E as E'. vm_compute in E'. injection E' as _ <-.
    split; [vm_compute; tauto | exact (Hs _ eq_refl)].
Defined.

(** C6 as stated fails in its "skipped whenever Reauthor ran": with
    Format to Template alone [reauthor_content] runs, and the helper is
    called all the same; and with Generate Content and Reauthor Content
    together the helper is skipped although [reauthor_content] did not
    run. *)
Lemma format_alone_reauthors_and_sections :
  let format_only :=
    world_of (process_article_async Sample.fine "Cake" "c"
                (Sample.options_of ["Format to Template"] ["Beginner"] [])
                "gpt-4" (Some "TPL")) [] in
  let generate_and_reauthor :=
    world_of (process_article_async Sample.fine "Cake" "c"
                (Sample.options_of ["Generate Content"; "Reauthor Content"]
                                   ["Beginner"] [])
                "gpt-4" None) [] in
  In (Log DEBUG "Reauthoring content") format_only
  /\ chat_prompts format_only = [reauthor_prompt "c" (Some "TPL") ["Beginner"]]
  /\ sections_calls format_only = [("# Article", ["Beginner"])]
  /\ ~ In (Log DEBUG "Reauthoring content") generate_and_reauthor
  /\ chat_prompts generate_and_reauthor
     = [generate_prompt "Cake" "c" ["Beginner"]]
  /\ sections_calls generate_and_reauthor = [].
Proof.
  split; [vm_compute; tauto |].
  split; [reflexivity |]. split; [reflexivity |].
  split; [| split; reflexivity].
  vm_compute. intro H.
  repeat (destruct H as [H | H]; [discriminate H |]). exact H.
Qed.

Lemma format_prompt_is_format content template :
  Py.startswith (format_prompt content template)
    "Format the following content to match the provided template structure"
  = true.
Proof. reflexivity. Qed.

(** [format_to_template] leaves its log record on every run. *)
Lemma format_to_template_leaves_marks env content template model options w :
  exists d,
    world_of (format_to_template env content template model options) w
    = (w ++ d)%list
    /\ 1 <= List.length (filter from_format_to_template d).
Proof.
  unfold world_of, format_to_template, send_to_openai_api_async,
    get_openai_client, chat_completion, logger_debug, logger_error, st_error,
    bind, emit, ret.
  destruct (get_openai_client_raises env _);
    [| destruct (chat_completions_create env _ model _)]; simpl snd;
    rewrite <- ?app_assoc; eexists; (split; [reflexivity |]);
    cbn; lia.
Qed.

(** C9, as the code has it.  With Format to Template among the actions
    and Generate Content not, the content stage enters
    [reauthor_content]; the one prompt it sends, unless the call for the
    client raised, is the prompt of [reauthor_content].  With a template
    that prompt tells the model to use "the provided template as a guide
    for formatting" and then gives the template text; without one it is
    the plain reauthor prompt, which holds no template text.  It is
    never the prompt of [format_to_template], and no run of the pipeline,
    whatever its input, shows a mark of [format_to_template]: neither
    its log record nor a model call with its prompt. *)
Theorem format_action_uses_reauthor_prompt
        env title content options model template w :
  (Py.mem "Format to Template" (Actions options) = true ->
   Py.mem "Generate Content" (Actions options) = false ->
   exists out d,
     content_stage env title content options model template w
     = (out, (w ++ d)%list)
     /\ In (Log DEBUG "Reauthoring content") d
     /\ (unhindered env w d = true <-> exists pc, out = Returns pc)
     /\ chat_prompts d
        = (if unhindered env w d
           then [reauthor_prompt content template (Perspective options)]
           else []))
  /\ (Py.truthy_str template = true ->
      occurs_in (", using the provided template as a guide for formatting:"
                 ++ Py.nl ++ Py.nl
                 ++ "Template:" ++ Py.nl ++ Py.format_str template)
                (reauthor_prompt content template (Perspective options)))
  /\ (Py.truthy_str template = false ->
      reauthor_prompt content template (Perspective options)
      = (if Py.is_empty (Py.strip content)
         then "Generate a knowledge base article based on the following template:"
         else "Reauthor the following content")
        ++ ", maintaining its core information but improving its clarity, structure, and readability:"
        ++ Py.nl ++ Py.nl ++ content ++ Py.nl ++ Py.nl
        ++ perspectives_clause (Perspective options)
        ++ "Provide the reauthored content directly, without any additional comments or questions.")
  /\ (forall c t,
         reauthor_prompt content template (Perspective options)
         <> format_prompt c t)
  /\ (exists d,
         world_of (process_article_async env title content options model
                                         template) w
         = (w ++ d)%list
         /\ filter from_format_to_template d = []).
Proof.
  split; [| split; [| split; [| split]]].
  - intros Hf Hg.
    assert (Hrf : Py.mem "Reauthor Content" (Actions options)
                  || Py.mem "Format to Template" (Actions options) = true)
      by (rewrite Hf; apply orb_true_r).
    destruct (content_call_run env _ _ _ _ _ _
                (content_stage_reauthor env title content options model
                                        template w Hg Hrf))
      as [out [d [E [Hin [Hu [_ [_ Hp]]]]]]].
    exists out, d. auto.
  - apply reauthor_prompt_with_template.
  - intro Ht.
    rewrite (reauthor_prompt_without_template _ _ _ Ht).
    apply reauthor_prompt_plain.
  - intros c t Heq.
    pose proof (reauthor_prompt_not_format content template
                  (Perspective options)) as Hn.
    rewrite Heq, format_prompt_is_format in Hn. discriminate Hn.
  - destruct (process_article_async_summary env title content options model
                                            template w)
      as [out [d [E [_ [_ [Hm _]]]]]].
    exists d. unfold world_of. rewrite E. split; [reflexivity | exact Hm].
Qed.

(** The theorem at work: Format to Template alone, with a template. *)
Lemma format_action_uses_reauthor_prompt_witness :
  exists out d,
    content_stage Sample.fine "Cake" "c"
      (Sample.options_of ["Format to Template"] [] [])
      "gpt-4" (Some "TPL") []
    = (out, d)
    /\ In (Log DEBUG "Reauthoring content") d
    /\ chat_prompts d = [reauthor_prompt "c" (Some "TPL") []]
    /\ occurs_in (", using the provided template as a guide for formatting:"
                  ++ Py.nl ++ Py.nl ++ "Template:" ++ Py.nl ++ "TPL")
                 (reauthor_prompt "c" (Some "TPL") []).
Proof.
  destruct (format_action_uses_reauthor_prompt Sample.fine "Cake" "c"
              (Sample.options_of ["Format to Template"] [] [])
              "gpt-4" (Some "TPL") [])
    as [Hstage [Ht _]].
  destruct (Hstage eq_refl eq_refl) as [out [d [E [Hin [_ Hp]]]]].
  exists out, d. split; [exact E |]. split; [exact Hin |]. split.
  - rewrite Hp.
    pose proof E as E'. vm_compute in E'. injection E' as _ <-.
    reflexivity.
  - exact (Ht eq_refl).
Defined.

(** C9 as stated fails in its "no template-specific format instruction
    beyond the template text": with Format to Template alone and a
    template, the prompt sent holds the instruction of line 110. *)
Lemma format_action_prompt_holds_format_instruction :
  let d :=
    world_of (content_stage Sample.fine "Cake" "c"
                (Sample.options_of ["Format to Template"] [] [])
                "gpt-4" (Some "TPL")) [] in
  chat_prompts d
  = ["Reauthor the following content, using the provided template as a guide for formatting:"
     ++ Py.nl ++ Py.nl ++ "Template:" ++ Py.nl ++ "TPL" ++ Py.nl ++ Py.nl
     ++ "Content to reauthor:" ++ Py.nl ++ Py.nl ++ "c" ++ Py.nl ++ Py.nl
     ++ "Provide the reauthored content directly, without any additional comments or questions."]
  /\ contains (reauthor_prompt "c" (Some "TPL") [])
              ", using the provided template as a guide for formatting:"
     = true
  /\ contains (reauthor_prompt "c" None [])
              ", using the provided template as a guide for formatting:"
     = false.
Proof. repeat split; vm_compute; reflexivity. Qed.

(** ** C7: how the prompts end *)

Lemma substring_whole (b : string) : substring 0 (String.length b) b = b.
Proof. induction b as [| x b IH]; simpl; [reflexivity | rewrite IH; reflexivity]. Qed.

Lemma substring_skip (a b : string) n :
  substring (String.length a) n (a ++ b) = substring 0 n b.
Proof. induction a as [| x a IH]; simpl; [reflexivity | exact IH]. Qed.

Lemma endswith_app (a b : string) : Py.endswith (a ++ b) b = true.
Proof.
  unfold Py.endswith. rewrite str_length_app.
  replace (String.length a + String.length b - String.length b)
    with (String.length a) by lia.
  rewrite substring_skip, substring_whole, String.eqb_refl.
  rewrite andb_true_r. apply Nat.leb_le. lia.
Qed.

(** C7, as the code has it.  The Generate and the Reauthor prompt end
    with the instruction "... without any additional comments or
    questions."; the Translate prompt gives the instruction before the
    content it interpolates and ends with that content; the
    Format-to-template prompt ends with the template and its fixed text
    holds no such instruction. *)
Theorem prompt_endings
        title content perspectives template_content language template :
  ends_with_instruction (generate_prompt title content perspectives) = true
  /\ ends_with_instruction
       (reauthor_prompt content template_content perspectives) = true
  /\ (exists before,
         translate_prompt content language
         = before ++ (no_commentary ++ ":") ++ Py.nl ++ Py.nl ++ content)
  /\ Py.endswith (translate_prompt content language) content = true
  /\ Py.endswith (format_prompt content template) template = true
  /\ contains (format_prompt EmptyString EmptyString) no_commentary = false.
Proof.
  split; [| split; [| split; [| split; [| split]]]].
  - unfold ends_with_instruction, generate_prompt.
    change "Provide the generated content in markdown format, without any additional comments or questions."
      with ("Provide the generated content in markdown format, "
            ++ (no_commentary ++ ".")).
    generalize (no_commentary ++ ".") as suffix. intro suffix.
    rewrite <- !str_app_assoc. apply endswith_app.
  - unfold ends_with_instruction, reauthor_prompt. cbv zeta.
    change "Provide the reauthored content directly, without any additional comments or questions."
      with ("Provide the reauthored content directly, "
            ++ (no_commentary ++ ".")).
    generalize (no_commentary ++ ".") as suffix. intro suffix.
    rewrite <- !str_app_assoc. apply endswith_app.
  - unfold translate_prompt.
    exists ("Translate the following content to " ++ language
            ++ ", maintaining its original structure and formatting. Provide the translated content directly, ").
    rewrite !str_app_assoc. reflexivity.
  - unfold translate_prompt. rewrite <- !str_app_assoc. apply endswith_app.
  - unfold format_prompt. rewrite <- !str_app_assoc. apply endswith_app.
  - vm_compute. reflexivity.
Qed.

(** C7 as stated fails: the Translate prompt for "Hello" ends with
    "Hello", and the Format-to-template prompt for "Hello" and "TPL" ends
    with "TPL"; neither ends with the instruction. *)
Lemma translate_and_format_prompts_end_with_input :
  ends_with_instruction (translate_prompt "Hello" "French") = false
  /\ Py.endswith (translate_prompt "Hello" "French") "Hello" = true
  /\ ends_with_instruction (format_prompt "Hello" "TPL") = false
  /\ Py.endswith (format_prompt "Hello" "TPL") "TPL" = true.
Proof. repeat split; vm_compute; reflexivity. Qed.

(** ** C2 and C10: the accounting of the batch loop *)

Lemma shifted_updates (per total completed k : nat) :
  (completed + per, total)
    :: map (fun i => (completed + per + i * per, total)) (seq 1 k)
  = map (fun i => (completed + i * per, total)) (seq 1 (S k)).
Proof.
  cbn [seq map]. f_equal; [f_equal; lia |].
  rewrite <- (seq_shift k 1), map_map. apply map_ext. intro i.
  f_equal. simpl. lia.
Qed.

Section Batch.

Variables (env : Env) (options : Options) (model : string)
          (template : option string) (total : nat).

Let per := operations_per_article options.

(** One run of the loop.  It opens the articles in turn and shows one
    progress value per finished article, each the previous one plus the
    per-article count.  It returns exactly when every call of the run
    was answered and the total is not zero (or there is no article);
    then every article was opened, the counter stands at the start
    value plus the count of all of them, and the results are those of
    the articles, in order.  It raises on the division by a zero total,
    on a call for the client that raised, or on a translation that came
    back as [None]. *)
Lemma batch_loop_account articles :
  forall all completed w,
    exists out d k j,
      batch_loop env options model template total articles all completed w
      = (out, (w ++ d)%list)
      /\ k <= j /\ j <= List.length articles
      /\ progress_updates d
         = map (fun i => (completed + i * per, total)) (seq 1 k)
      /\ article_logs d = flat_map article_opening (firstn j articles)
      /\ (forall final,
             out = Returns final ->
             k = List.length articles
             /\ j = List.length articles
             /\ snd final = completed + List.length articles * per
             /\ map result_lang (fst final)
                = (map result_lang all
                     ++ flat_map (fun _ => article_tags options) articles)%list
             /\ map result_title (fst final)
                = (map result_title all
                     ++ flat_map (fun a => article_titles options (fst a))
                          articles)%list)
      /\ ((exists final, out = Returns final)
          <-> unhindered env w d = true /\ (articles = [] \/ total <> 0))
      /\ (forall e,
             out = Raises e ->
             articles <> []
             /\ ((e = Py.ZeroDivisionError /\ total = 0)
                 \/ (e = Py.OpenAIError
                     /\ exists pre,
                          d = (pre ++ [GetOpenAIClient])%list
                          /\ get_openai_client_raises env (w ++ pre)%list
                             = true)
                 \/ (e = Py.TypeError
                     /\ Py.mem "Translate" (Actions options) = true
                     /\ exists pre c l,
                          d = (pre ++ [TranslateCall c l model])%list
                          /\ In l (Translation_Languages options)
                          /\ translate_reply env (w ++ pre)%list c l = None))).
Proof.
  induction articles as [| [title content] rest IH]; intros all completed w.
  - exists (Returns (all, completed)), [], 0, 0. rewrite app_nil_r.
    split; [reflexivity |]. split; [apply le_n |]. split; [apply le_n |].
    split; [reflexivity |]. split; [reflexivity |]. split; [| split].
    + intros final H. injection H as <-. cbn [fst snd List.length flat_map].
      rewrite !app_nil_r. repeat split; lia.
    + split; [intros _; split; [reflexivity | left; reflexivity] |].
      intros _. eexists. reflexivity.
    + intros e H. discriminate H.
  - rewrite batch_loop_step.
    destruct (process_article_async_summary env title content options model
                template
                (w ++ [Log DEBUG ("Processing article: " ++ title)])%list)
      as [oa [da [Ea [Pa [La [_ [Ua [Ra [Xa _]]]]]]]]].
    rewrite Ea.
    assert (Hlogs : article_logs
                      ([Log DEBUG ("Processing article: " ++ title)] ++ da)%list
                    = article_opening (title, content)).
    { unfold article_logs. rewrite filter_app.
      fold (article_logs da). rewrite La. reflexivity. }
    assert (Hprog : progress_updates
                      ([Log DEBUG ("Processing article: " ++ title)] ++ da)%list
                    = []).
    { unfold progress_updates. rewrite flat_map_app.
      fold (progress_updates da). rewrite Pa. reflexivity. }
    destruct oa as [results | e].
    + assert (Hua : unhindered env
                      (w ++ [Log DEBUG ("Processing article: " ++ title)])%list
                      da = true)
        by (apply Ua; eexists; reflexivity).
      destruct (total =? 0)%nat eqn:Et.
      * exists (Raises Py.ZeroDivisionError),
          ([Log DEBUG ("Processing article: " ++ title)] ++ da)%list, 0, 1.
        rewrite app_assoc. split; [reflexivity |].
        split; [lia |]. split; [cbn [List.length]; lia |].
        split; [exact Hprog |].
        split; [rewrite Hlogs; cbn [firstn flat_map]; rewrite app_nil_r;
                reflexivity |].
        split; [intros final H; discriminate H |]. split.
        -- split; [intros [final H]; discriminate H |].
           intros [_ [H | H]]; [discriminate H |].
           apply Nat.eqb_eq in Et. contradiction.
        -- intros e H. injection H as <-. split; [discriminate |].
           left. split; [reflexivity | apply Nat.eqb_eq; exact Et].
      * destruct (IH (all ++ results)%list (completed + per)
                     (((w ++ [Log DEBUG ("Processing article: " ++ title)])
                         ++ da)
                        ++ [ProgressUpdate (completed + per) total])%list)
          as [out [d [k [j [E [Hkj [Hj [P [L [Hret [Hiff Hraise]]]]]]]]]]].
        exists out,
          ([Log DEBUG ("Processing article: " ++ title)] ++ da
             ++ [ProgressUpdate (completed + per) total] ++ d)%list,
          (S k), (S j).
        fold per. rewrite E.
        split; [rewrite <- !app_assoc; reflexivity |].
        split; [lia |]. split; [cbn [List.length]; lia |]. split.
        { unfold progress_updates. rewrite !flat_map_app.
          fold (progress_updates da). fold (progress_updates d).
          rewrite Pa, P. cbn [flat_map app].
          apply shifted_updates. }
        split.
        { unfold article_logs. rewrite !filter_app.
          fold (article_logs da). fold (article_logs d).
          rewrite La, L. reflexivity. }
        split; [| split].
        -- intros final H.
           destruct (Hret final H) as [-> [-> [Hc [Hl Ht]]]].
           destruct (Ra results eq_refl) as [Hrl [Hrt _]].
           split; [reflexivity |]. split; [reflexivity |].
           split; [rewrite Hc; cbn [List.length]; lia |].
           rewrite Hl, Ht, !map_app, Hrl, Hrt, <- !app_assoc.
           split; reflexivity.
        -- rewrite Hiff. rewrite !unhindered_app, Hua.
           apply Nat.eqb_neq in Et.
           split; intros [Hu _]; (split; [| right; exact Et]).
           ++ rewrite Hu. reflexivity.
           ++ apply andb_prop in Hu. destruct Hu as [_ Hu].
              apply andb_prop in Hu. destruct Hu as [_ Hu].
              apply andb_prop in Hu. destruct Hu as [_ Hu]. exact Hu.
        -- intros e H. split; [discriminate |].
           destruct (Hraise e H)
             as [_ [Hz | [[-> [pre [-> Hr]]]
                         | [-> [Htr [pre [c [l [-> [Hin Hn]]]]]]]]]].
           ++ left. exact Hz.
           ++ right. left. split; [reflexivity |].
              exists ([Log DEBUG ("Processing article: " ++ title)] ++ da
                        ++ [ProgressUpdate (completed + per) total]
                        ++ pre)%list.
              split; [rewrite <- !app_assoc; reflexivity |].
              rewrite <- !app_assoc in Hr. exact Hr.
           ++ right. right. split; [reflexivity |]. split; [exact Htr |].
              exists ([Log DEBUG ("Processing article: " ++ title)] ++ da
                        ++ [ProgressUpdate (completed + per) total]
                        ++ pre)%list, c, l.
              split; [rewrite <- !app_assoc; reflexivity |].
              split; [exact Hin |].
              rewrite <- !app_assoc in Hn. exact Hn.
    + exists (Raises e),
        ([Log DEBUG ("Processing article: " ++ title)] ++ da)%list, 0, 1.
      rewrite app_assoc. split; [reflexivity |].
      split; [lia |]. split; [cbn [List.length]; lia |].
      split; [exact Hprog |].
      split; [rewrite Hlogs; cbn [firstn flat_map]; rewrite app_nil_r;
              reflexivity |].
      split; [intros final H; discriminate H |]. split.
      * split; [intros [final H]; discriminate H |].
        intros [Hu _]. rewrite unhindered_app in Hu.
        apply andb_prop in Hu. destruct Hu as [_ Hu].
        apply Ua in Hu. destruct Hu as [rs Hrs]. discriminate Hrs.
      * intros e' H. injection H as <-. split; [discriminate |]. right.
        destruct (Xa e eq_refl)
          as [[-> [pre [-> Hr]]] | [-> [Htr [pre [c [l [-> [Hin Hn]]]]]]]].
        -- left. split; [reflexivity |].
           exists ([Log DEBUG ("Processing article: " ++ title)]
                     ++ pre)%list.
           split; [rewrite <- !app_assoc; reflexivity |].
           rewrite <- !app_assoc in Hr. exact Hr.
        -- right. split; [reflexivity |]. split; [exact Htr |].
           exists ([Log DEBUG ("Processing article: " ++ title)]
                     ++ pre)%list, c, l.
           split; [rewrite <- !app_assoc; reflexivity |].
           split; [exact Hin |].
           rewrite <- !app_assoc in Hn. exact Hn.
Qed.

End Batch.

Lemma zip_length {A B} (xs : list A) (ys : list B) :
  List.length (Py.zip xs ys) = Nat.min (List.length xs) (List.length ys).
Proof.
  revert ys. induction xs as [| x xs IH]; intros [| y ys]; simpl; auto.
Qed.


Lemma multiples_sorted (per k a : nat) :
  StronglySorted le (map (fun i => i * per) (seq a k)).
Proof.
  revert a. induction k as [| k IH]; intro a; simpl; constructor.
  - apply IH.
  - apply Forall_forall. intros x Hx.
    apply in_map_iff in Hx. destruct Hx as [i [<- Hi]].
    apply in_seq in Hi. nia.
Qed.

(** When the loop of the batch can get past the division of line 153:
    there is no pair at all, or the action set is not empty. *)
Lemma batch_division_condition (titles contents : list string)
      (options : Options) :
  (Py.zip titles contents = []
   \/ total_operations titles options <> 0)
  <-> (Actions options <> []
       \/ Nat.min (List.length titles) (List.length contents) = 0).
Proof.
  rewrite <- zip_length.
  unfold total_operations, operations_per_article.
  destruct (Py.zip titles contents) as [| a rest] eqn:Ez.
  - split; intros _; [right; reflexivity | left; reflexivity].
  - destruct titles as [| t ts]; [discriminate Ez |].
    destruct (Actions options) as [| x xs].
    + split.
      * intros [H | H]; [discriminate H |].
        contradiction H. cbn. apply Nat.mul_0_r.
      * intros [H | H]; [contradiction H; reflexivity | discriminate H].
    + split; intros _; [left; discriminate |].
      right. cbn [List.length]. lia.
Qed.

(** C2, as the code has it.  [process_multiple_articles_async] fixes
    the total as len(titles) times the per-article count before the loop
    and starts the loop with the counter at 0.  Every progress value
    shown has that total as denominator and a numerator that is the
    previous one plus the per-article count, so the numerators never
    decrease and never exceed the total.  When the loop finishes the
    counter stands at min(len(titles), len(contents)) times the
    per-article count, which is the total when there are at least as many
    contents as titles; and the loop finishes exactly when every call of
    the run was answered and the action set is not empty, or there is
    no pair of title and content. *)
Theorem batch_progress_accounting
        env titles contents options model template w :
  let per := operations_per_article options in
  let total := total_operations titles options in
  let run :=
    batch_loop env options model template total (Py.zip titles contents)
               [] 0 (w ++ [ProgressBar 0])%list in
  process_multiple_articles_async env titles contents options model template w
  = match run with
    | (Returns final, w') => (Returns (fst final), w')
    | (Raises e, w') => (Raises e, w')
    end
  /\ total
     = List.length titles
       * (List.length (Actions options)
          + (if Py.mem "Translate" (Actions options)
             then List.length (Translation_Languages options)
             else 0))
  /\ (exists d k,
         snd run = ((w ++ [ProgressBar 0]) ++ d)%list
         /\ k <= Nat.min (List.length titles) (List.length contents)
         /\ progress_updates d = map (fun i => (i * per, total)) (seq 1 k)
         /\ Forall (fun u => fst u <= total /\ snd u = total)
                   (progress_updates d)
         /\ StronglySorted le (0 :: map fst (progress_updates d))
         /\ (forall final,
                fst run = Returns final ->
                snd final
                = Nat.min (List.length titles) (List.length contents) * per
                /\ snd final <= total
                /\ (List.length titles <= List.length contents ->
                    snd final = total))
         /\ ((exists final, fst run = Returns final)
             <-> unhindered env (w ++ [ProgressBar 0])%list d = true
                 /\ (Actions options <> []
                     \/ Nat.min (List.length titles) (List.length contents)
                        = 0))).
Proof.
  intros per total run.
  split; [reflexivity |]. split; [reflexivity |].
  destruct (batch_loop_account env options model template total
              (Py.zip titles contents) [] 0 (w ++ [ProgressBar 0])%list)
    as [out [d [k [j [E [Hkj [Hj [P [_ [Hret [Hiff _]]]]]]]]]]].
  fold run in E. rewrite E. cbn [fst snd].
  rewrite zip_length in Hj.
  exists d, k. split; [reflexivity |]. split; [lia |].
  fold per in P. simpl in P.
  split; [exact P |]. rewrite P. split; [| split; [| split]].
  - apply Forall_forall. intros u Hu.
    apply in_map_iff in Hu. destruct Hu as [i [<- Hi]].
    apply in_seq in Hi. simpl. split; [| reflexivity].
    unfold total, total_operations. fold per.
    apply Nat.mul_le_mono_r. lia.
  - rewrite map_map. simpl.
    apply (multiples_sorted per (S k) 0).
  - intros final Hfinal. destruct (Hret final Hfinal) as [_ [_ [Hc _]]].
    rewrite zip_length in Hc. simpl in Hc. fold per in Hc.
    split; [exact Hc |]. rewrite Hc.
    unfold total, total_operations. fold per. split.
    + apply Nat.mul_le_mono_r. lia.
    + intro Hle. rewrite Nat.min_l by exact Hle. reflexivity.
  - rewrite Hiff. unfold total.
    rewrite (batch_division_condition titles contents options).
    reflexivity.
Qed.

(** The theorem at work: two titles with their two contents. *)
Lemma batch_progress_accounting_witness :
  exists final,
    fst (batch_loop Sample.fine
           (Sample.options_of ["Reauthor Content"; "Translate"] []
                              ["French"; "Spanish"])
           "gpt-4" None
           (total_operations ["A"; "B"]
              (Sample.options_of ["Reauthor Content"; "Translate"] []
                                 ["French"; "Spanish"]))
           (Py.zip ["A"; "B"] ["a"; "b"]) [] 0 [ProgressBar 0])
    = Returns final
    /\ snd final = 8.
Proof.
  destruct (batch_progress_accounting Sample.fine ["A"; "B"] ["a"; "b"]
              (Sample.options_of ["Reauthor Content"; "Translate"] []
                                 ["French"; "Spanish"])
              "gpt-4" None [])
    as [_ [_ [d [k [Erun [_ [_ [_ [_ [Hfinal Hiff]]]]]]]]]].
  pose proof Erun as E'. vm_compute in E'. injection E' as <-.
  destruct (proj2 Hiff) as [final Hf];
    [split; [vm_compute; reflexivity | left; discriminate] |].
  exists final. split; [exact Hf |].
  destruct (Hfinal final Hf) as [_ [_ Ht]].
  rewrite Ht; [reflexivity | simpl; lia].
Defined.

(** C2 as stated fails: with two titles and one content the loop
    finishes with the counter at 1 while the total is 2; the last
    progress value shown is 1/2. *)
Lemma surplus_title_leaves_progress_short :
  let options := Sample.options_of ["Reauthor Content"] [] [] in
  let total := total_operations ["A"; "B"] options in
  let run :=
    batch_loop Sample.fine options "gpt-4" None total
               (Py.zip ["A"; "B"] ["a"]) [] 0 [ProgressBar 0] in
  total = 2
  /\ (exists results, fst run = Returns (results, 1))
  /\ progress_updates (snd run) = [(1, 2)]
  /\ ~ (exists results, fst run = Returns (results, total)).
Proof.
  split; [reflexivity |]. split; [eexists; reflexivity |].
  split; [reflexivity |].
  intros [results H]. vm_compute in H. discriminate H.
Qed.



(** * Further properties of [app.py] *)

(** ** The model client *)

(** X1.  [send_to_openai_api_async] calls for the client before
    anything else, once.  When that call raises, the exception leaves
    the function (line 23 is outside the [try]) and nothing else
    happens.  Otherwise the function returns: it sends exactly one
    request, with the given prompt, and gives back the trimmed text of
    the completion, or [None] when the request failed; in that case
    alone it logs one error and shows the same message on the page. *)
Theorem send_to_openai_api_async_contains_failures
        env prompt model options w :
  let reply :=
    chat_completions_create env (w ++ [GetOpenAIClient])%list model prompt in
  exists d,
    send_to_openai_api_async env prompt model options w
    = (if get_openai_client_raises env w
       then Raises Py.OpenAIError
       else Returns match reply with
                    | Completion text => Some (Py.strip text)
                    | ApiError _ => None
                    end,
       (w ++ GetOpenAIClient :: d)%list)
    /\ chat_prompts d
       = (if get_openai_client_raises env w then [] else [prompt])
    /\ error_logs d
       = (if get_openai_client_raises env w
          then []
          else match reply with
               | Completion _ => []
               | ApiError msg => ["OpenAI API Error: " ++ msg]
               end)
    /\ st_errors d = error_logs d
    /\ (get_openai_client_raises env w = true -> d = [])
    /\ Forall (fun e => content_stage_event e = true /\ e <> GetOpenAIClient)
              d.
Proof.
  unfold send_to_openai_api_async, get_openai_client, chat_completion,
    logger_error, st_error, bind, emit, ret.
  cbv zeta.
  destruct (get_openai_client_raises env w).
  - exists []. repeat split. constructor.
  - destruct (chat_completions_create env _ model prompt) as [text | msg];
      rewrite <- ?app_assoc; eexists; (split; [reflexivity |]);
      (split; [reflexivity |]); (split; [reflexivity |]);
      (split; [reflexivity |]); (split; [discriminate |]);
      repeat (constructor; [split; [reflexivity | discriminate] |]);
      constructor.
Qed.

(** The theorem at work: the client cannot be built. *)
Lemma send_to_openai_api_async_contains_failures_witness :
  send_to_openai_api_async Sample.no_client "Hello" "gpt-4"
    (Sample.options_of [] [] []) []
  = (Raises Py.OpenAIError, [GetOpenAIClient]).
Proof.
  destruct (send_to_openai_api_async_contains_failures Sample.no_client
              "Hello" "gpt-4" (Sample.options_of [] [] []) [])
    as [d [E [_ [_ [_ [Hd _]]]]]].
  rewrite (Hd eq_refl) in E. exact E.
Defined.

(** ** The two content calls *)

(** X2.  [generate_content] logs its record and asks for the model.
    When the call for the client raises, it ends in that exception and
    no request is sent.  Otherwise it returns a string after one request
    to the model: the trimmed completion when the model answered with
    some text, and the content it was given when the request failed or
    the answer was blank.  It logs "Content generation failed or
    returned empty content" in the second case and in no other. *)
Theorem generate_content_result
        env title content perspectives model options w :
  let w0 := (w ++ [Log DEBUG "Generating content"])%list in
  let reply :=
    chat_completions_create env (w0 ++ [GetOpenAIClient])%list
      model (generate_prompt title content perspectives) in
  exists d,
    generate_content env title content perspectives model options w
    = (if get_openai_client_raises env w0
       then Raises Py.OpenAIError
       else Returns (content_or_reply content reply),
       (w ++ d)%list)
    /\ chat_prompts d
       = (if get_openai_client_raises env w0
          then []
          else [generate_prompt title content perspectives])
    /\ existsb
         (String.eqb "Content generation failed or returned empty content")
         (error_logs d)
       = negb (get_openai_client_raises env w0) && falls_back reply.
Proof.
  unfold generate_content, send_to_openai_api_async, get_openai_client,
    chat_completion, logger_debug, logger_error, st_error, bind, emit, ret,
    content_or_reply, falls_back.
  cbv zeta.
  destruct (get_openai_client_raises env _).
  - rewrite <- app_assoc. eexists. split; [reflexivity |].
    split; reflexivity.
  - destruct (chat_completions_create env _ model _) as [text | msg].
    + rewrite strip_strip_empty.
      destruct (Py.is_empty (Py.strip text)); rewrite <- !app_assoc;
        eexists; (split; [reflexivity |]); split; reflexivity.
    + rewrite <- !app_assoc. eexists. split; [reflexivity |].
      split; reflexivity.
Qed.

(** X3.  [reauthor_content] logs its record and asks for the model.
    When the call for the client raises, it ends in that exception and
    no request is sent.  Otherwise it returns a string after one request
    to the model: the trimmed completion when the model answered with
    some text, and the content it was given when the request failed or
    the answer was blank.  It logs "Reauthoring failed or returned empty
    content" in the second case and in no other. *)
Theorem reauthor_content_result
        env content template perspectives model options w :
  let w0 := (w ++ [Log DEBUG "Reauthoring content"])%list in
  let reply :=
    chat_completions_create env (w0 ++ [GetOpenAIClient])%list
      model (reauthor_prompt content template perspectives) in
  exists d,
    reauthor_content env content template perspectives model options w
    = (if get_openai_client_raises env w0
       then Raises Py.OpenAIError
       else Returns (content_or_reply content reply),
       (w ++ d)%list)
    /\ chat_prompts d
       = (if get_openai_client_raises env w0
          then []
          else [reauthor_prompt content template perspectives])
    /\ existsb
         (String.eqb "Reauthoring failed or returned empty content")
         (error_logs d)
       = negb (get_openai_client_raises env w0) && falls_back reply.
Proof.
  unfold reauthor_content, send_to_openai_api_async, get_openai_client,
    chat_completion, logger_debug, logger_error, st_error, bind, emit, ret,
    content_or_reply, falls_back.
  cbv zeta.
  destruct (get_openai_client_raises env _).
  - rewrite <- app_assoc. eexists. split; [reflexivity |].
    split; reflexivity.
  - destruct (chat_completions_create env _ model _) as [text | msg].
    + rewrite strip_strip_empty.
      destruct (Py.is_empty (Py.strip text)); rewrite <- !app_assoc;
        eexists; (split; [reflexivity |]); split; reflexivity.
    + rewrite <- !app_assoc. eexists. split; [reflexivity |].
      split; reflexivity.
Qed.

(** X4.  The content stage never turns content that holds some text into
    blank content: whatever the model does, what the stage returns has
    text left after trimming; and it does return when every call of its
    run was answered. *)
Theorem content_stage_keeps_text
        env title content options model template w :
  Py.is_empty (Py.strip content) = false ->
  exists out d,
    content_stage env title content options model template w
    = (out, (w ++ d)%list)
    /\ (unhindered env w d = true -> exists processed, out = Returns processed)
    /\ (forall processed,
          out = Returns processed ->
          Py.is_empty (Py.strip processed) = false).
Proof.
  intro Hc.
  destruct (content_stage_run env title content options model template w)
    as [out [d [E [Hu [_ Hret]]]]].
  exists out, d. split; [exact E |]. split; [apply Hu |].
  intros processed Hp. destruct (Hret processed Hp) as [_ [reply ->]].
  destruct (Py.mem "Generate Content" (Actions options)
            || (Py.mem "Reauthor Content" (Actions options)
                || Py.mem "Format to Template" (Actions options)));
    [apply content_or_reply_not_blank |]; exact Hc.
Qed.

(** The theorem at work: the model answers with blanks only. *)
Lemma content_stage_keeps_text_witness :
  exists processed,
    outcome_of (content_stage Sample.blank "Cake" "flour and sugar"
                  (Sample.options_of ["Generate Content"] [] [])
                  "gpt-4" None) []
    = Returns processed
    /\ Py.is_empty (Py.strip processed) = false.
Proof.
  destruct (content_stage_keeps_text Sample.blank "Cake" "flour and sugar"
              (Sample.options_of ["Generate Content"] [] []) "gpt-4" None []
              eq_refl)
    as [out [d [E [Hu Hp]]]].
  pose proof E as E'. vm_compute in E'. injection E' as <- <-.
  destruct (Hu eq_refl) as [processed Hret].
  exists processed. unfold outcome_of. rewrite E.
  split; [exact Hret | exact (Hp processed Hret)].
Defined.

(** ** One article: exceptions, exports, translations, model calls *)

(** X5.  [process_article_async] returns exactly when every call of its
    run was answered.  It ends in an exception in two ways only:
    [OpenAIError], with an action that asks for the model, when the call
    for the client raised; or [TypeError], with Translate among the
    actions, when a translation for one of the requested languages came
    back as [None].  In both cases the failed call is the last event of
    the run. *)
Theorem process_article_async_exceptions
        env title content options model template w :
  exists out d,
    process_article_async env title content options model template w
    = (out, (w ++ d)%list)
    /\ (unhindered env w d = true <-> exists results, out = Returns results)
    /\ (forall e,
          out = Raises e ->
          (e = Py.OpenAIError
           /\ Py.mem "Generate Content" (Actions options)
              || (Py.mem "Reauthor Content" (Actions options)
                  || Py.mem "Format to Template" (Actions options)) = true
           /\ exists pre,
                d = (pre ++ [GetOpenAIClient])%list
                /\ get_openai_client_raises env (w ++ pre)%list = true)
          \/ (e = Py.TypeError
              /\ Py.mem "Translate" (Actions options) = true
              /\ exists pre c l,
                   d = (pre ++ [TranslateCall c l model])%list
                   /\ In l (Translation_Languages options)
                   /\ translate_reply env (w ++ pre)%list c l = None)).
Proof.
  destruct (process_article_async_summary env title content options model
                                          template w)
    as [out [d [E [_ [_ [_ [Hu [_ [Hraise _]]]]]]]]].
  exists out, d. split; [exact E |]. split; [exact Hu |].
  intros e He. destruct (Hraise e He) as [[-> Hpre] | Hte]; [left | right].
  - split; [reflexivity |]. split; [| exact Hpre].
    destruct (Py.mem "Generate Content" (Actions options)) eqn:Hg;
      [reflexivity |].
    destruct (Py.mem "Reauthor Content" (Actions options)
              || Py.mem "Format to Template" (Actions options)) eqn:Hrf;
      [reflexivity |].
    exfalso. subst out.
    destruct (process_article_async_run env title content options model
                                        template w) as [stage [d1 [E1 H]]].
    rewrite (content_stage_pass env title content options model template _
               Hg Hrf) in E1.
    injection E1 as <- _. cbv zeta in H. destruct H as [out [d3 [E3 E']]].
    destruct (translation_stage_facts env _ _ _ _ _ _ _ E3)
      as [_ [_ [k [_ [_ [_ [_ [_ Raise3]]]]]]]].
    rewrite E in E'. injection E' as <- _.
    destruct (Raise3 _ eq_refl) as [Hx _]. discriminate Hx.
  - exact Hte.
Qed.

(** The theorem at work: the client cannot be built; and every
    translation fails. *)
Lemma process_article_async_exceptions_witness :
  (exists d,
      process_article_async Sample.no_client "Cake" "c"
        (Sample.options_of ["Reauthor Content"; "Translate"] [] ["French"])
        "gpt-4" None []
      = (Raises Py.OpenAIError, d)
      /\ exists pre, d = (pre ++ [GetOpenAIClient])%list)
  /\ (exists d,
         process_article_async Sample.broken "Cake" "c"
           (Sample.options_of ["Reauthor Content"; "Translate"] [] ["French"])
           "gpt-4" None []
         = (Raises Py.TypeError, d)
         /\ exists pre c l,
              d = (pre ++ [TranslateCall c l "gpt-4"])%list
              /\ In l ["French"]).
Proof.
  split.
  - destruct (process_article_async_exceptions Sample.no_client "Cake" "c"
                (Sample.options_of ["Reauthor Content"; "Translate"] []
                                   ["French"])
                "gpt-4" None []) as [out [d [E [_ Hraise]]]].
    pose proof E as E'. vm_compute in E'. injection E' as <- <-.
    eexists. split; [exact E |].
    destruct (Hraise _ eq_refl)
      as [[_ [_ [pre [Hd _]]]] | [Hx _]]; [| discriminate Hx].
    exists pre. exact Hd.
  - destruct (process_article_async_exceptions Sample.broken "Cake" "c"
                (Sample.options_of ["Reauthor Content"; "Translate"] []
                                   ["French"])
                "gpt-4" None []) as [out [d [E [_ Hraise]]]].
    pose proof E as E'. vm_compute in E'. injection E' as <- <-.
    eexists. split; [exact E |].
    destruct (Hraise _ eq_refl)
      as [[Hx _] | [_ [_ [pre [c [l [Hd [Hin _]]]]]]]]; [discriminate Hx |].
    exists pre, c, l. split; [exact Hd | exact Hin].
Defined.

(** X6.  A run of [process_article_async] that returns has exported
    exactly the texts of its results, each once and in the order of the
    results: no result without an export and no export without a
    result. *)
Theorem process_article_async_exports_its_results
        env title content options model template w results :
  outcome_of (process_article_async env title content options model template)
             w
  = Returns results ->
  exists d,
    world_of (process_article_async env title content options model template)
             w
    = (w ++ d)%list
    /\ exports d = map result_text results.
Proof.
  unfold outcome_of, world_of.
  destruct (process_article_async_summary env title content options model
                                          template w)
    as [out [d [E [_ [_ [_ [_ [Hret _]]]]]]]].
  rewrite E. cbn [fst snd]. intro H.
  exists d. split; [reflexivity |].
  destruct (Hret results H) as [_ [_ He]]. exact He.
Qed.

(** The theorem at work: two translations. *)
Lemma process_article_async_exports_its_results_witness :
  exists d,
    world_of (process_article_async Sample.fine "Cake" "c"
                (Sample.options_of ["Translate"] [] ["French"; "Spanish"])
                "gpt-4" None) []
    = d
    /\ exports d = ["French: c"; "Spanish: c"].
Proof.
  destruct (process_article_async_exports_its_results Sample.fine "Cake" "c"
              (Sample.options_of ["Translate"] [] ["French"; "Spanish"])
              "gpt-4" None []
              [(Some "French: c", "Cake_French", "French: c", "French");
               (Some "Spanish: c", "Cake_Spanish", "Spanish: c", "Spanish")])
    as [d [E H]]; [reflexivity |].
  exists d. split; [exact E | exact H].
Defined.

(** X7.  In every run the translation helper is called on one content
    only, for the languages in their order, as far as the run gets; a
    run with Translate among the actions that returns has called it once
    per language, on the output of the perspective stage and not on an
    earlier translation.  Without Translate the helper is never
    called. *)
Theorem process_article_async_translates_one_content
        env title content options model template w :
  exists out d,
    process_article_async env title content options model template w
    = (out, (w ++ d)%list)
    /\ (Py.mem "Translate" (Actions options) = false ->
        translate_calls d = [])
    /\ (exists c k,
           k <= List.length (Translation_Languages options)
           /\ translate_calls d
              = (if Py.mem "Translate" (Actions options)
                 then map (fun l => (c, l, model))
                          (firstn k (Translation_Languages options))
                 else []))
    /\ (Py.mem "Translate" (Actions options) = true ->
        forall results,
          out = Returns results ->
          exists pc1,
            outcome_of (content_stage env title content options model
                                      template)
              (w ++ [Log DEBUG ("Processing article: " ++ title);
                     Log DEBUG ("Initial content: "
                                ++ Py.slice_to 100 content ++ "...")])%list
            = Returns pc1
            /\ translate_calls d
               = map (fun l =>
                        (if sectioning_applies options
                         then perspective_sections env pc1
                                (Perspective options)
                         else pc1,
                         l, model))
                     (Translation_Languages options)).
Proof.
  destruct (process_article_async_run env title content options model
                                      template w) as [stage [d1 [E1 H]]].
  destruct (content_stage_facts env _ _ _ _ _ _ _ _ E1)
    as [_ [G1 _]].
  destruct (content_events_no_exports d1 G1) as [_ Ht1].
  destruct stage as [pc1 | e].
  - cbv zeta in H. destruct H as [out [d3 [E3 E]]].
    destruct (translation_stage_facts env _ _ _ _ _ _ _ E3)
      as [_ [_ [k [Hk [_ [Hc [_ [Ret3 _]]]]]]]].
    exists out. eexists. split; [exact E |].
    assert (Hall : translate_calls
                     ([Log DEBUG ("Processing article: " ++ title);
                       Log DEBUG ("Initial content: "
                                  ++ Py.slice_to 100 content ++ "...")]
                        ++ d1
                        ++ (if sectioning_applies options
                            then [PerspectiveSections pc1 (Perspective options);
                                  Log DEBUG
                                    ("Content after applying perspectives: "
                                     ++ Py.slice_to 100
                                          (if sectioning_applies options
                                           then perspective_sections env pc1
                                                  (Perspective options)
                                           else pc1)
                                     ++ "...")]
                            else [])
                        ++ d3)%list
                   = translate_calls d3).
    { unfold translate_calls in *. rewrite !flat_map_app, Ht1.
      destruct (sectioning_applies options); reflexivity. }
    rewrite Hall, Hc.
    split; [intros ->; reflexivity |]. split.
    + eexists. exists k. split; [exact Hk | reflexivity].
    + intros Ht results Hr. exists pc1. unfold outcome_of. rewrite E1.
      split; [reflexivity |].
      destruct (Ret3 results Hr) as [_ [_ [_ [Hkl _]]]].
      rewrite Ht, (Hkl Ht), firstn_all. reflexivity.
  - exists (Raises e). eexists. split; [exact H |].
    assert (Hall : translate_calls
                     ([Log DEBUG ("Processing article: " ++ title);
                       Log DEBUG ("Initial content: "
                                  ++ Py.slice_to 100 content ++ "...")]
                        ++ d1)%list = []).
    { unfold translate_calls in *. rewrite flat_map_app, Ht1. reflexivity. }
    rewrite Hall.
    split; [reflexivity |]. split.
    + exists content, 0. split; [lia |].
      destruct (Py.mem "Translate" (Actions options)); reflexivity.
    + intros _ results Hr. discriminate Hr.
Qed.

(** The theorem at work: two languages, one content. *)
Lemma process_article_async_translates_one_content_witness :
  exists d,
    world_of (process_article_async Sample.fine "Cake" "c"
                (Sample.options_of ["Translate"] [] ["French"; "Spanish"])
                "gpt-4" None) []
    = d
    /\ translate_calls d = [("c", "French", "gpt-4"); ("c", "Spanish", "gpt-4")].
Proof.
  destruct (process_article_async_translates_one_content Sample.fine "Cake" "c"
              (Sample.options_of ["Translate"] [] ["French"; "Spanish"])
              "gpt-4" None [])
    as [out [d [E [_ [_ H]]]]].
  exists d. unfold world_of. rewrite E. split; [reflexivity |].
  pose proof E as E'. vm_compute in E'. injection E' as <- _.
  destruct (H eq_refl _ eq_refl) as [pc1 [E1 Hc]].
  vm_compute in E1. injection E1 as <-.
  exact Hc.
Defined.

(** X8.  Whatever the number of languages, one article leads to at most
    one request of [app.py] to the model: the one of the content stage,
    and exactly that one unless the run ended in the [OpenAIError] of a
    call for the client, before any request.  The perspective stage and
    the translation stage send none of their own. *)
Theorem process_article_async_sends_one_request
        env title content options model template w :
  exists out d,
    process_article_async env title content options model template w
    = (out, (w ++ d)%list)
    /\ chat_prompts d
       = match out with
         | Raises Py.OpenAIError => []
         | _ =>
             if Py.mem "Generate Content" (Actions options)
             then [generate_prompt title content (Perspective options)]
             else if Py.mem "Reauthor Content" (Actions options)
                     || Py.mem "Format to Template" (Actions options)
                  then [reauthor_prompt content template
                                        (Perspective options)]
                  else []
         end
    /\ List.length (chat_prompts d) <= 1.
Proof.
  destruct (process_article_async_summary env title content options model
                                          template w)
    as [out [d [E [_ [_ [_ [_ [_ [_ [Hp _]]]]]]]]]].
  exists out, d. split; [exact E |]. split; [exact Hp |].
  rewrite Hp.
  assert (Hsel : List.length
                   (if Py.mem "Generate Content" (Actions options)
                    then [generate_prompt title content (Perspective options)]
                    else if Py.mem "Reauthor Content" (Actions options)
                            || Py.mem "Format to Template" (Actions options)
                         then [reauthor_prompt content template
                                               (Perspective options)]
                         else []) <= 1).
  { destruct (Py.mem "Generate Content" (Actions options));
      [cbn [List.length]; lia |].
    destruct (Py.mem "Reauthor Content" (Actions options)
              || Py.mem "Format to Template" (Actions options));
      cbn [List.length]; lia. }
  destruct out as [rs | []]; try exact Hsel. cbn [List.length]. lia.
Qed.

(** ** The batch: empty input, exceptions, order of the results *)

(** X9.  With no title or no content there is nothing to process:
    [process_multiple_articles_async] returns the empty list, shows the
    empty progress bar and does nothing else, whatever the options; in
    particular it does not divide by the zero total of an empty action
    set. *)
Theorem process_multiple_articles_async_empty_input
        env titles contents options model template w :
  titles = [] \/ contents = [] ->
  process_multiple_articles_async env titles contents options model template w
  = (Returns [], (w ++ [ProgressBar 0])%list).
Proof.
  intro H. rewrite process_multiple_articles_async_run.
  assert (Hz : Py.zip titles contents = []).
  { destruct H as [-> | ->]; [reflexivity |].
    destruct titles; reflexivity. }
  rewrite Hz. reflexivity.
Qed.

(** The theorem at work: titles without contents, and no action. *)
Lemma process_multiple_articles_async_empty_input_witness :
  process_multiple_articles_async Sample.broken ["A"; "B"] []
    (Sample.options_of [] [] []) "gpt-4" None []
  = (Returns [], [ProgressBar 0]).
Proof.
  apply (process_multiple_articles_async_empty_input Sample.broken
           ["A"; "B"] [] (Sample.options_of [] [] []) "gpt-4" None []).
  right. reflexivity.
Defined.

(** X10.  [process_multiple_articles_async] returns exactly when every
    call of its run was answered and the action set is not empty, or
    there is no pair of title and content.  It ends in an exception in
    three ways only: [ZeroDivisionError], with an empty action set and
    at least one pair of title and content; [OpenAIError], when a call
    for the client raised; or [TypeError], with Translate among the
    actions, when a translation came back as [None].  In the last two
    cases the failed call is the last event of the run. *)
Theorem process_multiple_articles_async_exceptions
        env titles contents options model template w :
  exists out d,
    process_multiple_articles_async env titles contents options model
                                    template w
    = (out, (w ++ d)%list)
    /\ ((exists results, out = Returns results)
        <-> unhindered env w d = true
            /\ (Actions options <> []
                \/ Nat.min (List.length titles) (List.length contents) = 0))
    /\ (forall e,
          out = Raises e ->
          (e = Py.ZeroDivisionError
           /\ Actions options = [] /\ titles <> [] /\ contents <> [])
          \/ (e = Py.OpenAIError
              /\ exists pre,
                   d = (pre ++ [GetOpenAIClient])%list
                   /\ get_openai_client_raises env (w ++ pre)%list = true)
          \/ (e = Py.TypeError
              /\ Py.mem "Translate" (Actions options) = true
              /\ exists pre c l,
                   d = (pre ++ [TranslateCall c l model])%list
                   /\ In l (Translation_Languages options)
                   /\ translate_reply env (w ++ pre)%list c l = None)).
Proof.
  rewrite process_multiple_articles_async_run.
  destruct (batch_loop_account env options model template
              (total_operations titles options) (Py.zip titles contents)
              [] 0 (w ++ [ProgressBar 0])%list)
    as [out [d [k [j [E [_ [_ [_ [_ [_ [Hiff Hraise]]]]]]]]]]].
  rewrite E.
  exists (match out with
          | Returns final => Returns (fst final)
          | Raises e => Raises e
          end), (ProgressBar 0 :: d).
  split; [destruct out; rewrite <- app_assoc; reflexivity |]. split.
  - assert (Hu : unhindered env w (ProgressBar 0 :: d)
                 = unhindered env (w ++ [ProgressBar 0])%list d)
      by reflexivity.
    rewrite Hu, <- (batch_division_condition titles contents options),
      <- Hiff.
    destruct out as [final | e]; split; intros [x Hx];
      try discriminate Hx; eexists; reflexivity.
  - intros e He. destruct out as [final | e']; [discriminate He |].
    injection He as <-.
    destruct (Hraise e' eq_refl)
      as [Hne [[-> Ht] | [[-> [pre [-> Hr]]]
                         | [-> [Htr [pre [c [l [-> [Hin Hn]]]]]]]]]].
    + left. split; [reflexivity |].
      destruct titles as [| t ts]; [contradiction Hne; reflexivity |].
      destruct contents as [| c cs]; [contradiction Hne; reflexivity |].
      split; [| split; discriminate].
      unfold total_operations, operations_per_article in Ht.
      destruct (Actions options) as [| a acts]; [reflexivity |].
      simpl in Ht. discriminate Ht.
    + right. left. split; [reflexivity |].
      exists (ProgressBar 0 :: pre). split; [reflexivity |].
      rewrite <- app_assoc in Hr. exact Hr.
    + right. right. split; [reflexivity |]. split; [exact Htr |].
      exists (ProgressBar 0 :: pre), c, l.
      split; [reflexivity |]. split; [exact Hin |].
      rewrite <- app_assoc in Hn. exact Hn.
Qed.

(** The theorem at work: one article and no action; and a client that
    cannot be built. *)
Lemma process_multiple_articles_async_exceptions_witness :
  (outcome_of (process_multiple_articles_async Sample.fine ["A"] ["a"]
                 (Sample.options_of [] [] []) "gpt-4" None) []
   = Raises Py.ZeroDivisionError
   /\ Actions (Sample.options_of [] [] []) = [])
  /\ (exists d pre,
         process_multiple_articles_async Sample.no_client ["A"] ["a"]
           (Sample.options_of ["Generate Content"] [] []) "gpt-4" None []
         = (Raises Py.OpenAIError, d)
         /\ d = (pre ++ [GetOpenAIClient])%list).
Proof.
  split.
  - destruct (process_multiple_articles_async_exceptions Sample.fine
                ["A"] ["a"] (Sample.options_of [] [] []) "gpt-4" None [])
      as [out [d [E [_ Hraise]]]].
    unfold outcome_of. rewrite E. cbn [fst].
    pose proof E as E'. vm_compute in E'. injection E' as <- _.
    destruct (Hraise _ eq_refl) as [[_ [Ha _]] | [[He _] | [He _]]];
      try discriminate He.
    split; [reflexivity | exact Ha].
  - destruct (process_multiple_articles_async_exceptions Sample.no_client
                ["A"] ["a"] (Sample.options_of ["Generate Content"] [] [])
                "gpt-4" None [])
      as [out [d [E [_ Hraise]]]].
    pose proof E as E'. vm_compute in E'. injection E' as <- <-.
    destruct (Hraise _ eq_refl)
      as [[He _] | [[_ [pre [Hd _]]] | [He _]]]; try discriminate He.
    eexists. exists pre. split; [exact E | exact Hd].
Defined.

Lemma flat_map_constant_length {A B} (l : list B) (xs : list A) :
  List.length (flat_map (fun _ => l) xs) = List.length xs * List.length l.
Proof.
  induction xs as [| x xs IH]; simpl; [reflexivity |].
  rewrite length_app, IH. reflexivity.
Qed.

(** X11.  The list [process_multiple_articles_async] returns holds the
    results article by article, in the order of the pairs of title and
    content, and within an article in the order of the languages: the
    tags are the languages (or "Original") repeated for every pair, and
    the titles are built from the title of the pair. *)
Theorem process_multiple_articles_async_result_order
        env titles contents options model template w results :
  outcome_of (process_multiple_articles_async env titles contents options
                                              model template) w
  = Returns results ->
  map result_lang results
  = flat_map (fun _ => article_tags options) (Py.zip titles contents)
  /\ map result_title results
     = flat_map (fun a => article_titles options (fst a))
                (Py.zip titles contents)
  /\ List.length results
     = Nat.min (List.length titles) (List.length contents)
       * List.length (article_tags options).
Proof.
  unfold outcome_of. rewrite process_multiple_articles_async_run.
  destruct (batch_loop_account env options model template
              (total_operations titles options) (Py.zip titles contents)
              [] 0 (w ++ [ProgressBar 0])%list)
    as [out [d [k [j [E [_ [_ [_ [_ [Hret _]]]]]]]]]].
  rewrite E. destruct out as [final | e]; cbn [fst]; intro H;
    [| discriminate H].
  injection H as <-.
  destruct (Hret final eq_refl) as [_ [_ [_ [Hl Ht]]]].
  cbn [map app] in Hl, Ht.
  split; [exact Hl |]. split; [exact Ht |].
  rewrite <- (length_map result_lang), Hl, <- zip_length.
  apply flat_map_constant_length.
Qed.

(** The theorem at work: two articles, two languages each. *)
Lemma process_multiple_articles_async_result_order_witness :
  exists results,
    outcome_of (process_multiple_articles_async Sample.fine ["A"; "B"]
                  ["a"; "b"]
                  (Sample.options_of ["Translate"] [] ["French"; "Spanish"])
                  "gpt-4" None) []
    = Returns results
    /\ map result_lang results = ["French"; "Spanish"; "French"; "Spanish"]
    /\ map result_title results
       = ["A_French"; "A_Spanish"; "B_French"; "B_Spanish"].
Proof.
  eexists. split; [reflexivity |].
  destruct (process_multiple_articles_async_result_order Sample.fine
              ["A"; "B"] ["a"; "b"]
              (Sample.options_of ["Translate"] [] ["French"; "Spanish"])
              "gpt-4" None [] _ eq_refl) as [Hl [Ht _]].
  split; [exact Hl | exact Ht].
Defined.

(** ** The presentation of the results *)

Lemma display_loop_run results :
  forall w,
    exists d,
      display_loop results w = (Returns tt, (w ++ d)%list)
      /\ expanders d = map result_label results
      /\ downloads d = flat_map result_download results
      /\ st_errors d = flat_map result_failure results.
Proof.
  induction results as [| [[[docx title] text] lang] rest IH]; intro w.
  - exists []. rewrite app_nil_r. repeat split.
  - cbn [display_loop]. unfold bind at 1. unfold emit at 1.
    unfold bind at 1. unfold emit at 1. unfold bind at 1.
    destruct docx as [buffer |]; unfold st_error, emit at 1;
      match goal with
      | |- context [display_loop rest ?w1] =>
          destruct (IH w1) as [d [E [He [Hd Hs]]]]
      end;
      rewrite E; rewrite <- !app_assoc;
      eexists; (split; [reflexivity |]);
      unfold expanders, downloads, st_errors in *; simpl;
      rewrite He, Hd, Hs; repeat split.
Qed.

Lemma zip_loop_run results :
  forall entries w,
    zip_loop results entries w
    = if all_documents results
      then (Returns (entries ++ flat_map result_entry results)%list, w)
      else (Raises Py.AttributeError, w).
Proof.
  induction results as [| [[[docx title] text] lang] rest IH];
    intros entries w.
  - simpl. rewrite app_nil_r. reflexivity.
  - cbn [zip_loop]. destruct docx as [buffer |]; [| reflexivity].
    rewrite IH. cbn [all_documents forallb result_docx andb].
    fold (all_documents rest).
    destruct (all_documents rest); [| reflexivity].
    rewrite <- app_assoc. reflexivity.
Qed.

(** The whole of [display_results]: the heading, the widgets of every
    result, and the archive when there is more than one result. *)
Lemma display_results_run results w :
  exists d,
    display_results results w
    = (if (1 <? List.length results)%nat && negb (all_documents results)
       then Raises Py.AttributeError
       else Returns tt,
       (w ++ d)%list)
    /\ expanders d = map result_label results
    /\ st_errors d = flat_map result_failure results
    /\ downloads d
       = (flat_map result_download results
            ++ (if (1 <? List.length results)%nat && all_documents results
                then [("kb_articles.zip",
                       Archive (flat_map result_entry results))]
                else []))%list.
Proof.
  unfold display_results.
  unfold bind at 1. unfold emit at 1. unfold bind at 1.
  destruct (display_loop_run results (w ++ [Subheader "Generated Articles"])%list)
    as [d [E [He [Hd Hs]]]].
  rewrite E.
  destruct (1 <? List.length results)%nat.
  - unfold create_zip_download, bind. rewrite zip_loop_run.
    destruct (all_documents results); cbn [andb negb].
    + unfold emit. rewrite <- !app_assoc. eexists.
      split; [reflexivity |].
      unfold expanders, downloads, st_errors in *.
      rewrite !flat_map_app, He, Hd, Hs. simpl.
      rewrite !app_nil_r. repeat split.
    + rewrite <- !app_assoc. eexists. split; [reflexivity |].
      unfold expanders, downloads, st_errors in *.
      rewrite !flat_map_app, He, Hd, Hs. simpl.
      rewrite !app_nil_r. repeat split.
  - cbn [andb]. unfold ret.
    rewrite <- !app_assoc. eexists. split; [reflexivity |].
    unfold expanders, downloads, st_errors in *.
    rewrite !flat_map_app, He, Hd, Hs. simpl.
    rewrite !app_nil_r. repeat split.
Qed.

(** X12.  [display_results] opens one expander per result, in order; it
    offers a download, named title_tag.docx and holding the document,
    for every result with a document, and shows the message "Failed to
    generate Word document for ..." for every result without one, and
    for no other. *)
Theorem display_results_widgets results w :
  exists d,
    world_of (display_results results) w = (w ++ d)%list
    /\ expanders d = map result_label results
    /\ st_errors d = flat_map result_failure results
    /\ exists archive,
         downloads d = (flat_map result_download results ++ archive)%list
         /\ List.length archive <= 1
         /\ List.length (flat_map result_download results)
            + List.length (flat_map result_failure results)
            = List.length results.
Proof.
  destruct (display_results_run results w) as [d [E [He [Hs Hd]]]].
  exists d. unfold world_of. rewrite E.
  split; [reflexivity |]. split; [exact He |]. split; [exact Hs |].
  eexists. split; [exact Hd |]. split.
  - destruct ((1 <? List.length results)%nat && all_documents results);
      simpl; lia.
  - clear. induction results as [| [[[docx title] text] lang] rest IH];
      [reflexivity |].
    destruct docx; simpl in *; lia.
Qed.

(** X13.  [display_results] offers the archive "kb_articles.zip" exactly
    when there is more than one result and every result has a document;
    the archive then holds, in the same order and under the same names,
    the documents offered one by one.  With more than one result and a
    missing document it ends in [AttributeError] instead, after the
    widgets of the results; with at most one result it always returns. *)
Theorem display_results_archive results w :
  exists d,
    world_of (display_results results) w = (w ++ d)%list
    /\ downloads d
       = (flat_map result_download results
            ++ (if (1 <? List.length results)%nat && all_documents results
                then [("kb_articles.zip",
                       Archive (flat_map result_entry results))]
                else []))%list
    /\ map (fun entry => (fst entry, Document (snd entry)))
           (flat_map result_entry results)
       = flat_map result_download results
    /\ outcome_of (display_results results) w
       = (if (1 <? List.length results)%nat && negb (all_documents results)
          then Raises Py.AttributeError
          else Returns tt).
Proof.
  destruct (display_results_run results w) as [d [E [_ [_ Hd]]]].
  exists d. unfold world_of, outcome_of. rewrite E.
  split; [reflexivity |]. split; [exact Hd |]. split; [| reflexivity].
  clear. induction results as [| [[[docx title] text] lang] rest IH];
    [reflexivity |].
  destruct docx; simpl in *; rewrite ?IH; reflexivity.
Qed.

(** ** An article from input to download *)






(** ** What the prompts carry *)

Lemma occurs_in_join (sep p : string) (l : list string) :
  In p l -> occurs_in p (Py.join sep l).
Proof.
  induction l as [| x l IH]; intro Hin; [contradiction |].
  destruct l as [| y l].
  - destruct Hin as [-> | []]. apply occurs_in_refl.
  - change (Py.join sep (x :: y :: l)) with (x ++ sep ++ Py.join sep (y :: l)).
    destruct Hin as [-> | Hin].
    + apply occurs_in_app_l, occurs_in_refl.
    + apply occurs_in_app_r, occurs_in_app_r, IH, Hin.
Qed.

Lemma occurs_in_perspectives_clause p perspectives :
  In p perspectives -> occurs_in p (perspectives_clause perspectives).
Proof.
  intro Hin. unfold perspectives_clause.
  destruct perspectives as [| x l]; [contradiction |].
  cbn [Py.truthy_list].
  apply occurs_in_app_r, occurs_in_app_l, occurs_in_join, Hin.
Qed.

(** X15.  The prompts carry what the user entered: the Generate prompt
    holds the title and the content, the Reauthor prompt holds the
    content, whatever the perspectives are; and both name every
    requested perspective. *)
Theorem prompts_carry_the_input
        title content template perspectives :
  occurs_in title (generate_prompt title content perspectives)
  /\ occurs_in content (generate_prompt title content perspectives)
  /\ occurs_in content (reauthor_prompt content template perspectives)
  /\ (forall p,
        In p perspectives ->
        occurs_in p (generate_prompt title content perspectives)
        /\ occurs_in p (reauthor_prompt content template perspectives)).
Proof.
  unfold generate_prompt, reauthor_prompt. cbv zeta.
  split; [| split; [| split]].
  - apply occurs_in_app_l, occurs_in_app_r, occurs_in_app_l, occurs_in_refl.
  - apply occurs_in_app_l. do 5 apply occurs_in_app_r.
    apply occurs_in_app_l, occurs_in_refl.
  - apply occurs_in_app_l, occurs_in_app_l, occurs_in_app_r.
    do 2 apply occurs_in_app_r. apply occurs_in_app_l, occurs_in_refl.
  - intros p Hin. split.
    + apply occurs_in_app_r, occurs_in_app_l, occurs_in_perspectives_clause,
        Hin.
    + apply occurs_in_app_l, occurs_in_app_r, occurs_in_perspectives_clause,
        Hin.
Qed.

(** The theorem at work: no perspective, and two perspectives. *)
Lemma prompts_carry_the_input_witness :
  occurs_in "Cake" (generate_prompt "Cake" "c" [])
  /\ occurs_in "Expert" (generate_prompt "Cake" "c" ["Beginner"; "Expert"])
  /\ occurs_in "Expert"
       (reauthor_prompt "c" (Some "TPL") ["Beginner"; "Expert"]).
Proof.
  split.
  - exact (proj1 (prompts_carry_the_input "Cake" "c" None [])).
  - destruct (prompts_carry_the_input "Cake" "c" (Some "TPL")
                ["Beginner"; "Expert"]) as [_ [_ [_ Hp]]].
    apply (Hp "Expert"). right. left. reflexivity.
Defined.
